(** * Moldovan company registry crawler (datasets/md/companies/parse.py)

    A shallow embedding of the crawler's parsing code and the properties of
    its behaviour.

    Conventions of the embedding.
    - A Python [str] is a Rocq [string] that holds the UTF-8 encoding of the
      text, as this file holds the column labels.  Splitting, cutting,
      replacing and searching with the separators of the source, all of them
      ASCII, are the same on the bytes as on the characters; the two
      operations that are not, [len] and [strip], are written for UTF-8
      ([Py.len] counts characters, [Py.strip] removes the white space of
      [str.isspace] in its encoded form).  The regular-expression class [\d]
      is ['0'..'9'], which is Python's class on every text whose characters
      lie below U+0660, the first digit of another script; a link written
      with such digits is outside the model.
    - A spreadsheet cell is a [pyval]: [None], a [str], an [int], a [bool],
      or any other object (a float, a date, a time), which the source only
      ever formats, tests for truth or fails to split.
    - The toolkit the crawler is written against (zavod's [Context] and
      [Entity], lxml, the HTTP cache) is not part of the repository: it
      enters as the interfaces [Toolkit] and [Web].
    - Effects are explicit: a computation takes the crawl context (the stream
      of emitted entities, the log, the resources fetched) and returns the
      new context with either a value or the exception raised. *)

From Stdlib Require Import String Ascii ZArith List Lia Bool DecimalString.
From stdpp Require Import gmap strings.
Import ListNotations.

Local Open Scope string_scope.
Local Open Scope list_scope.

(** ** Python strings *)

Module Py.

(** [s.startswith(p)] *)
Fixpoint startswith (p s : string) : bool :=
  match p, s with
  | EmptyString, _ => true
  | String a p', String b s' => if Ascii.eqb a b then startswith p' s' else false
  | String _ _, EmptyString => false
  end.

(** [s[n:]] *)
Fixpoint drop (n : nat) (s : string) : string :=
  match n, s with
  | O, _ => s
  | S n', String _ s' => drop n' s'
  | S _, EmptyString => EmptyString
  end.

(** [s[:n]] *)
Fixpoint take (n : nat) (s : string) : string :=
  match n, s with
  | O, _ => EmptyString
  | S n', String a s' => String a (take n' s')
  | S _, EmptyString => EmptyString
  end.

(** [sub in s], for a non-empty [sub] as everywhere in the source *)
Fixpoint contains (sub s : string) : bool :=
  startswith sub s ||
  match s with
  | EmptyString => false
  | String _ s' => contains sub s'
  end.

(** The scan behind [s.split(sep)] for a non-empty [sep]: the piece being
    read and the pieces after it.  [skip] counts the characters of a
    separator just recognised that are still to be passed over. *)
Fixpoint split_scan (sep : string) (skip : nat) (s : string) : string * list string :=
  match s with
  | EmptyString => (EmptyString, [])
  | String a s' =>
      match skip with
      | S k => split_scan sep k s'
      | O =>
          if startswith sep s then
            let '(p, ps) := split_scan sep (String.length sep - 1) s' in
            (EmptyString, p :: ps)
          else
            let '(p, ps) := split_scan sep 0 s' in
            (String a p, ps)
      end
  end.

(** [s.split(sep)] *)
Definition split (sep s : string) : list string :=
  let '(p, ps) := split_scan sep 0 s in p :: ps.

(** [s.split(sep, 1)]: cut at the first occurrence of [sep] only *)
Fixpoint split1 (sep s : string) : list string :=
  if startswith sep s then [EmptyString; drop (String.length sep) s]
  else
    match s with
    | EmptyString => [EmptyString]
    | String a s' =>
        match split1 sep s' with
        | [l; r] => [String a l; r]
        | _ => [s]
        end
    end.

(** The cut of [s.rsplit(sep, 1)]: the text before and after the last
    occurrence of [sep], when there is one. *)
Fixpoint rcut (sep s : string) : option (string * string) :=
  match s with
  | EmptyString => None
  | String a s' =>
      match rcut sep s' with
      | Some (l, r) => Some (String a l, r)
      | None =>
          if startswith sep s then Some (EmptyString, drop (String.length sep) s)
          else None
      end
  end.

(** [s.rsplit(sep, 1)] *)
Definition rsplit1 (sep s : string) : list string :=
  match rcut sep s with
  | Some (l, r) => [l; r]
  | None => [s]
  end.

(** [sep.join(parts)] *)
Fixpoint join (sep : string) (parts : list string) : string :=
  match parts with
  | [] => EmptyString
  | [p] => p
  | p :: ps => p +:+ sep +:+ join sep ps
  end.

(** [s.replace(old, new)] for a non-empty [old] *)
Definition replace (old new s : string) : string :=
  join new (split old s).

(** [len(s)]: the characters of a text are the bytes of its encoding that
    do not continue a character (those outside [0x80..0xBF]). *)
Fixpoint len (s : string) : nat :=
  match s with
  | EmptyString => O
  | String a s' =>
      let n := nat_of_ascii a in
      if (128 <=? n)%nat && (n <=? 191)%nat then len s' else S (len s')
  end.

(** The number of bytes of the white-space character [s] starts with, [0]
    when it starts with none.  White space is what [str.isspace] accepts:
    U+0009..U+000D, U+001C..U+0020, U+0085, U+00A0, U+1680, U+2000..U+200A,
    U+2028, U+2029, U+202F, U+205F and U+3000, here in UTF-8. *)
Definition space_width (s : string) : nat :=
  match s with
  | EmptyString => 0
  | String a s1 =>
      let n := nat_of_ascii a in
      if ((9 <=? n)%nat && (n <=? 13)%nat) || ((28 <=? n)%nat && (n <=? 32)%nat) then 1
      else
        match s1 with
        | EmptyString => 0
        | String b s2 =>
            let m := nat_of_ascii b in
            if (n =? 194)%nat && ((m =? 133)%nat || (m =? 160)%nat) then 2
            else
              match s2 with
              | EmptyString => 0
              | String c _ =>
                  let k := nat_of_ascii c in
                  if ((n =? 225)%nat && (m =? 154)%nat && (k =? 128)%nat)
                     || ((n =? 226)%nat && (m =? 128)%nat
                         && (((128 <=? k)%nat && (k <=? 138)%nat)
                             || (k =? 168)%nat || (k =? 169)%nat || (k =? 175)%nat))
                     || ((n =? 226)%nat && (m =? 129)%nat && (k =? 159)%nat)
                     || ((n =? 227)%nat && (m =? 128)%nat && (k =? 128)%nat)
                  then 3 else 0
              end
        end
  end.

(** The scan of [s.lstrip()]: [skip] counts the bytes still to pass over of
    a white-space character just recognised. *)
Fixpoint lstrip_scan (skip : nat) (s : string) : string :=
  match s with
  | EmptyString => EmptyString
  | String _ s' =>
      match skip with
      | S k => lstrip_scan k s'
      | O =>
          match space_width s with
          | O => s
          | S k => lstrip_scan k s'
          end
      end
  end.

(** [s.lstrip()] *)
Definition lstrip (s : string) : string := lstrip_scan 0 s.

(** [s.rstrip()]: a text that is white space to its end is dropped from
    there on. *)
Fixpoint rstrip (s : string) : string :=
  match s with
  | EmptyString => EmptyString
  | String a s' =>
      match lstrip s with
      | EmptyString => EmptyString
      | _ => String a (rstrip s')
      end
  end.

(** [s.strip()] *)
Definition strip (s : string) : string := rstrip (lstrip s).

(** [\d] *)
Definition isdigit (c : ascii) : bool :=
  let n := nat_of_ascii c in (48 <=? n)%nat && (n <=? 57)%nat.

Definition digit_val (c : ascii) : Z := (Z.of_nat (nat_of_ascii c) - 48)%Z.

(** [int(s)] for a string of decimal digits *)
Definition int_of_digits (s : string) : Z :=
  fold_left (fun acc c => (10 * acc + digit_val c)%Z) (list_ascii_of_string s) 0%Z.

(** [str(n)] for an [int] *)
Definition str_of_int (n : Z) : string :=
  match n with
  | Z0 => "0"
  | _ => DecimalString.NilZero.string_of_int (Z.to_int n)
  end.

End Py.

(** ** Values, exceptions and the crawl context *)

(** A cell of the sheet, or any value handed to the toolkit.  [VObj text
    truth] is an object that is neither [None], a [str], an [int] nor a
    [bool] (a float, a date, a time): it is held by the text [str()] gives
    of it and by its truth value, which is all the source asks of it. *)
Inductive pyval : Type :=
| VNone
| VStr (s : string)
| VInt (n : Z)
| VBool (b : bool)
| VObj (text : string) (truth : bool).

(** [str(v)], which is also what an f-string writes for [{v}], and what
    [%r] writes for an [int] or a [bool] *)
Definition py_str (v : pyval) : string :=
  match v with
  | VNone => "None"
  | VStr s => s
  | VInt n => Py.str_of_int n
  | VBool true => "True"
  | VBool false => "False"
  | VObj text _ => text
  end.

(** [s == v] for a text [s], as in [s in cells]: only the same text is equal
    to a text. *)
Definition text_is (s : string) (v : pyval) : bool :=
  match v with
  | VStr t => String.eqb s t
  | _ => false
  end.

(** [v is None] *)
Definition is_none (v : pyval) : bool :=
  match v with
  | VNone => true
  | _ => false
  end.

(** A cell the directors and owners parsers can read: null, or a text with
    its [split]. *)
Definition null_or_text (v : pyval) : bool :=
  match v with
  | VNone | VStr _ => true
  | _ => false
  end.

(** [isinstance(v, int)]: an [int], or a [bool], which is a subclass. *)
Definition is_int (v : pyval) : bool :=
  match v with
  | VInt _ | VBool _ => true
  | _ => false
  end.

(** A cell the founders parser can read: null, a text, or an instance of
    [int], which it logs and passes over. *)
Definition null_text_or_int (v : pyval) : bool :=
  null_or_text v || is_int v.

(** An optional string as a Python value ([None] when absent). *)
Definition of_opt (o : option string) : pyval :=
  match o with
  | Some s => VStr s
  | None => VNone
  end.

(** [director, role = parts]: unpacking into two names needs two items. *)
Definition unpack2 (parts : list string) : option (string * string) :=
  match parts with
  | [a; b] => Some (a, b)
  | _ => None
  end.

Inductive exn : Type :=
| KeyError (key : string)
| AttributeError
| TypeError
| ValueError
| AssertionError
| OverflowError
| RuntimeError (msg : string).

Inductive result (A : Type) : Type :=
| Ok (a : A)
| Raise (e : exn).
Arguments Ok {A} a.
Arguments Raise {A} e.

(** An entity as the emission sink receives it: schema, id and the cleaned
    property values in the order they were added. *)
Record entity : Type := Entity {
  ent_schema : string;
  ent_id : option string;
  ent_props : list (string * string)
}.

Inductive level : Type := Info | Warning | Error.

(** A record written with [context.log]: message and keyword fields. *)
Record log_record : Type := Log {
  log_level : level;
  log_msg : string;
  log_fields : list (string * pyval)
}.

(** The part of zavod's [Context] this code changes, all of it append-only:
    the stream of emitted entities, the log, and the resources fetched (file
    name and URL of each [fetch_resource]). *)
Record ctx : Type := Ctx {
  emitted : list entity;
  logged : list log_record;
  fetched : list (string * string)
}.

Definition ctx0 : ctx := Ctx [] [] [].

(** ** Computations: context passing with exceptions *)

Definition M (A : Type) : Type := ctx -> ctx * result A.

Definition ret {A : Type} (a : A) : M A := fun c => (c, Ok a).

Definition raise {A : Type} (e : exn) : M A := fun c => (c, Raise e).

Definition bind {A B : Type} (m : M A) (k : A -> M B) : M B :=
  fun c =>
    match m c with
    | (c', Ok a) => k a c'
    | (c', Raise e) => (c', Raise e)
    end.

Declare Scope crawl_scope.
Delimit Scope crawl_scope with crawl.
Notation "x <- m ;; k" := (bind m (fun x => k))
  (at level 100, m at next level, right associativity) : crawl_scope.
Notation "m ;; k" := (bind m (fun _ => k))
  (at level 100, right associativity) : crawl_scope.
Local Open Scope crawl_scope.

(** [context.emit(entity)]: the entity joins the stream.  The sink takes
    entities that have an id.  On the company sheet every id is made of
    parts of which one is the id of the company or a fixed label.  On the
    sheet of organizations the parts are cells and [make_id] may give
    nothing: what the sink does with an entity without id is the toolkit's
    affair and is not followed here, and the statements on those rows say
    that the ids are there. *)
Definition emit (e : entity) : M unit :=
  fun c => (Ctx (emitted c ++ [e]) (logged c) (fetched c), Ok tt).

(** [context.log.<level>(msg, **fields)] *)
Definition log (l : level) (msg : string) (fields : list (string * pyval)) : M unit :=
  fun c => (Ctx (emitted c) (logged c ++ [Log l msg fields]) (fetched c), Ok tt).

(** [for x in xs: body]; a [continue] is a body that ends early. *)
Fixpoint for_each {A : Type} (xs : list A) (body : A -> M unit) : M unit :=
  match xs with
  | [] => ret tt
  | x :: xs' => body x ;; for_each xs' body
  end.

(** [data.pop(key)] *)
Definition pop (key : string) (data : gmap string pyval) : M (pyval * gmap string pyval) :=
  match data !! key with
  | Some v => ret (v, delete key data)
  | None => raise (KeyError key)
  end.

(** [data.pop(key, default)] *)
Definition pop_default (key : string) (default : pyval) (data : gmap string pyval)
  : pyval * gmap string pyval :=
  match data !! key with
  | Some v => (v, delete key data)
  | None => (default, data)
  end.

(** [dict(zip(headers, cells))]: pairs up to the shorter list, a later
    duplicate of a header replacing the earlier one. *)
Definition dict_zip (headers : list string) (cells : list pyval) : gmap string pyval :=
  fold_left (fun m kv => <[fst kv := snd kv]> m) (combine headers cells) ∅.

(** ** The toolkit's entity interface *)

(** What the crawler uses of zavod and followthemoney.
    - [make_id parts]: the stable identifier hashed from the parts, or
      nothing when no identifier can be made of them;
    - [clean schema prop v]: the value stored when [v] is added to property
      [prop] of an entity of [schema], or nothing when the value is dropped;
    - [audit_data data ignore]: the diagnostics written for the columns left
      in [data] that are not listed in [ignore].
    The one thing required of the cleaning is that an empty text is no
    value ([clean_empty]). *)
Class Toolkit : Type := {
  make_id : list pyval -> option string;
  clean : string -> string -> pyval -> option string;
  audit_data : gmap string pyval -> list string -> list log_record;
  clean_empty : forall schema prop, clean schema prop (VStr EmptyString) = None
}.

Section Entities.
Context {tk : Toolkit}.

(** [context.make(schema)] *)
Definition make (schema : string) : entity := Entity schema None [].

(** [entity.id = i] *)
Definition set_id (e : entity) (i : option string) : entity :=
  Entity (ent_schema e) i (ent_props e).

(** [entity.add(prop, v)]: [None] adds nothing, any other value is cleaned
    for the property and kept unless the cleaning drops it.  (No entity of
    this crawler is given the same property twice.) *)
Definition add (e : entity) (prop : string) (v : pyval) : entity :=
  match v with
  | VNone => e
  | _ =>
      match clean (ent_schema e) prop v with
      | Some t => Entity (ent_schema e) (ent_id e) (ent_props e ++ [(prop, t)])
      | None => e
      end
  end.

(** [entity.has(prop)] *)
Definition has (e : entity) (prop : string) : bool :=
  existsb (fun p => String.eqb (fst p) prop) (ent_props e).

(** [context.audit_data(data, ignore=ignore)] *)
Definition audit (data : gmap string pyval) (ignore : list string) : M unit :=
  fun c => (Ctx (emitted c) (logged c ++ audit_data data ignore) (fetched c), Ok tt).

End Entities.

(** ** The company register *)

Definition IGNORE_COLUMNS : list string :=
  [ "Codul unităţii administrativ-teritoriale";
    "Genuri de activitate nelicentiate";
    "Genuri de activitate licentiate" ].

(** The column labels [parse_company] reads. *)
Definition COL_IDNO : string := "IDNO/ Cod fiscal".
Definition COL_NAME : string := "Denumirea completă".
Definition COL_ADDRESS : string := "Adresa".
Definition COL_INCORPORATION : string := "Data înregistrării".
Definition COL_DISSOLUTION : string := "Data lichidării".
Definition COL_LEGAL_FORM : string := "Forma org./jurid.".
Definition COL_DIRECTORS : string := "Lista conducătorilor".
Definition COL_FOUNDERS : string := "Lista fondatorilor".
Definition COL_OWNERS : string := "Lista beneficiarilor efectivi".

Section Companies.
Context {tk : Toolkit}.

Definition parse_directors (company : entity) (directors : pyval) : M unit :=
  match directors with
  | VNone => ret tt
  | VInt _ | VBool _ | VObj _ _ => raise AttributeError
  | VStr directors =>
      for_each (Py.split "]," directors) (fun director =>
        let '(director, role) :=
          match unpack2 (Py.rsplit1 "[" director) with
          | Some (d, r) => (d, VStr (Py.strip (Py.replace "]" EmptyString r)))
          | None => (director, VNone)
          end in
        let director := Py.strip director in
        if (Py.len director <? 3)%nat then ret tt
        else
          let dir := make "LegalEntity" in
          let dir := set_id dir (make_id [of_opt (ent_id company); VStr director]) in
          let dir := add dir "name" (VStr director) in
          emit dir ;;
          let dship := make "Directorship" in
          let dship :=
            set_id dship
              (make_id [VStr "Directorship"; of_opt (ent_id company); VStr director; role]) in
          let dship := add dship "organization" (of_opt (ent_id company)) in
          let dship := add dship "director" (of_opt (ent_id dir)) in
          let dship := add dship "role" role in
          emit dship)
  end.

Definition parse_founders (company : entity) (founders : pyval) : M unit :=
  match founders with
  | VNone => ret tt
  | VInt _ | VBool _ => log Info ("last line: " +:+ py_str founders) []
  | VObj _ _ => raise AttributeError
  | VStr founders =>
      for_each (Py.split ")," founders) (fun founder =>
        let founder := Py.replace ")" EmptyString founder in
        fp <- (if Py.contains "(" founder then
                 match unpack2 (Py.rsplit1 "(" founder) with
                 | Some (f, p) => ret (f, VStr p)
                 | None => raise ValueError
                 end
               else ret (founder, VNone)) ;;
        let '(founder, percentage) := fp in
        let founder := Py.strip founder in
        let found := make "LegalEntity" in
        let found := set_id found (make_id [of_opt (ent_id company); VStr founder]) in
        let found := add found "name" (VStr founder) in
        if negb (has found "name") then ret tt
        else
          emit found ;;
          let own := make "Ownership" in
          let own :=
            set_id own (make_id [VStr "Ownership"; of_opt (ent_id company); VStr founder]) in
          let own := add own "asset" (of_opt (ent_id company)) in
          let own := add own "owner" (of_opt (ent_id found)) in
          let own := add own "role" percentage in
          emit own)
  end.

Definition parse_owners (company : entity) (owners : pyval) : M unit :=
  match owners with
  | VNone => ret tt
  | VInt _ | VBool _ | VObj _ _ => raise AttributeError
  | VStr owners =>
      for_each (Py.split ")," owners) (fun owner =>
        let owner := Py.replace ")" EmptyString owner in
        oc <- (if Py.contains "(" owner then
                 match unpack2 (Py.rsplit1 "(" owner) with
                 | Some (o, c) => ret (o, VStr c)
                 | None => raise ValueError
                 end
               else ret (owner, VNone)) ;;
        let '(owner, country) := oc in
        let owner := Py.strip owner in
        let bo := make "LegalEntity" in
        let bo := set_id bo (make_id [of_opt (ent_id company); VStr owner]) in
        let bo := add bo "name" (VStr owner) in
        let bo := add bo "country" country in
        (if negb (is_none country) && negb (has bo "country")
         then log Warning "Unknown country code" [("country", country)]
         else ret tt) ;;
        if negb (has bo "name") then ret tt
        else
          emit bo ;;
          let own := make "Ownership" in
          let own :=
            set_id own (make_id [VStr "Ownership"; of_opt (ent_id company); VStr owner]) in
          let own := add own "asset" (of_opt (ent_id company)) in
          let own := add own "owner" (of_opt (ent_id bo)) in
          let own := add own "role" (VStr "beneficiarilor efectivi") in
          emit own)
  end.

Definition parse_company (data : gmap string pyval) : M unit :=
  r <- pop COL_IDNO data ;;
  let '(idno, data) := r in
  r <- pop COL_NAME data ;;
  let '(name, data) := r in
  r <- pop COL_ADDRESS data ;;
  let '(address, data) := r in
  let company := make "Company" in
  let company :=
    match idno with
    | VNone => set_id company (make_id [name; address])
    | _ => set_id company (Some ("oc-companies-md-" +:+ py_str idno))
    end in
  match ent_id company with
  | None =>
      log Error "Cannot generate key"
        [("idno", idno); ("name", name); ("address", address)]
  | Some _ =>
      let company := add company "name" name in
      let company := add company "taxNumber" idno in
      r <- pop COL_INCORPORATION data ;;
      let '(incorporated, data) := r in
      let company := add company "incorporationDate" incorporated in
      r <- pop COL_DISSOLUTION data ;;
      let '(dissolved, data) := r in
      let company := add company "dissolutionDate" dissolved in
      let company := add company "jurisdiction" (VStr "md") in
      let company := add company "address" address in
      r <- pop COL_LEGAL_FORM data ;;
      let '(legal_form, data) := r in
      let company := add company "legalForm" legal_form in
      r <- pop COL_DIRECTORS data ;;
      let '(directors, data) := r in
      parse_directors company directors ;;
      r <- pop COL_FOUNDERS data ;;
      let '(founders, data) := r in
      parse_founders company founders ;;
      let '(owners, data) := pop_default COL_OWNERS VNone data in
      parse_owners company owners ;;
      emit company ;;
      audit data IGNORE_COLUMNS
  end.

(** The header of a column: [str(cell).split(" (", 1)[0]] *)
Definition header_of (cell : pyval) : string :=
  nth 0 (Py.split1 " (" (py_str cell)) EmptyString.

(** The loop of [parse_companies] over the rows of the sheet, from row
    [idx] on, with the headers found so far. *)
Fixpoint parse_rows (headers : option (list string)) (idx : N)
    (rows : list (list pyval)) : M unit :=
  match rows with
  | [] => ret tt
  | cells :: rest =>
      match headers with
      | None =>
          if existsb (text_is COL_NAME) cells
          then parse_rows (Some (map header_of cells)) (idx + 1) rest
          else parse_rows None (idx + 1) rest
      | Some hs =>
          parse_company (dict_zip hs cells) ;;
          (if (0 <? idx)%N && (idx mod 10000 =? 0)%N
           then log Info ("Read " +:+ Py.str_of_int (Z.of_N idx) +:+ " companies...") []
           else ret tt) ;;
          parse_rows headers (idx + 1) rest
      end
  end.

(** [parse_companies], given the rows of the sheet named Company. *)
Definition parse_companies (rows : list (list pyval)) : M unit :=
  parse_rows None 0 rows.

End Companies.

(** ** Dates *)

Module Date.
Local Open Scope Z_scope.

(** A naive [datetime]: the proleptic Gregorian ordinal of its date (day 1
    is 0001-01-01) and the microsecond within that day. *)
Record datetime : Type := Datetime {
  dt_ordinal : Z;
  dt_usec : Z
}.

Definition is_leap (y : Z) : bool :=
  (y mod 4 =? 0) && (negb (y mod 100 =? 0) || (y mod 400 =? 0)).

Definition days_in_month (y m : Z) : Z :=
  if m =? 2 then (if is_leap y then 29 else 28)
  else if (m =? 4) || (m =? 6) || (m =? 9) || (m =? 11) then 30
  else 31.

Definition days_before_year (y : Z) : Z :=
  let y := y - 1 in y * 365 + y / 4 - y / 100 + y / 400.

Definition days_before_month (y m : Z) : Z :=
  nth (Z.to_nat (m - 1)) [0; 31; 59; 90; 120; 151; 181; 212; 243; 273; 304; 334] 0
  + (if (2 <? m) && is_leap y then 1 else 0).

Definition ymd2ord (y m d : Z) : Z :=
  days_before_year y + days_before_month y m + d.

(** [datetime(y, m, d, hh, mm, ss)] *)
Definition at_time (y m d hh mm ss : Z) : datetime :=
  Datetime (ymd2ord y m d) (((hh * 60 + mm) * 60 + ss) * 1000000).

(** [a < b] *)
Definition lt (a b : datetime) : bool :=
  (dt_ordinal a <? dt_ordinal b)
  || ((dt_ordinal a =? dt_ordinal b) && (dt_usec a <? dt_usec b)).

(** [t - timedelta(days=n)]; nothing when the result falls before
    [datetime.min] (an [OverflowError]). *)
Definition sub_days (t : datetime) (n : Z) : option datetime :=
  if dt_ordinal t - n <? 1 then None
  else Some (Datetime (dt_ordinal t - n) (dt_usec t)).

(** [datetime.strptime(text, "%Y.%m.%d")] for a text of the shape
    [dddd.dd.dd], which is all the date pattern hands over; nothing when
    the digits are not a calendar date (a [ValueError]). *)
Definition strptime (text : string) : option datetime :=
  let y := Py.int_of_digits (Py.take 4 text) in
  let m := Py.int_of_digits (Py.take 2 (Py.drop 5 text)) in
  let d := Py.int_of_digits (Py.take 2 (Py.drop 8 text)) in
  if (1 <=? y) && (1 <=? m) && (m <=? 12) && (1 <=? d) && (d <=? days_in_month y m)
  then Some (Datetime (ymd2ord y m d) 0)
  else None.

End Date.

(** ** Regular expressions of the recency selector *)

(** [re.search]: the match at the leftmost position where the pattern
    applies, [here] telling what the pattern matches at the start of a text. *)
Fixpoint re_search {A : Type} (here : string -> option A) (s : string) : option A :=
  match here s with
  | Some m => Some m
  | None =>
      match s with
      | EmptyString => None
      | String _ s' => re_search here s'
      end
  end.

(** Whether a search found a match, as in [if re.search(...)]. *)
Definition matched {A : Type} (m : option A) : bool :=
  match m with
  | Some _ => true
  | None => false
  end.

(** [resources/2019-\d{2}] *)
Definition old_path_here (s : string) : option string :=
  if Py.startswith "resources/2019-" s then
    match Py.drop 15 s with
    | String d1 (String d2 _) =>
        if Py.isdigit d1 && Py.isdigit d2 then Some (Py.take 17 s) else None
    | _ => None
    end
  else None.

(** [(\d{4})[.](\d{2})[.](\d{2})]; the match is [group(0)] *)
Definition date_here (s : string) : option string :=
  match s with
  | String y1 (String y2 (String y3 (String y4 (String p1
      (String m1 (String m2 (String p2 (String d1 (String d2 _))))))))) =>
      if Py.isdigit y1 && Py.isdigit y2 && Py.isdigit y3 && Py.isdigit y4
         && Ascii.eqb p1 "." && Py.isdigit m1 && Py.isdigit m2
         && Ascii.eqb p2 "." && Py.isdigit d1 && Py.isdigit d2
      then Some (Py.take 10 s) else None
  | _ => None
  end.

(** ** The catalogue pages *)

(** What the crawler uses of lxml, urllib and the HTTP cache.
    - [xpath query d] and [findall path d]: the elements selected in a parsed
      document, in document order;
    - [get_attr e name]: [e.get(name)], nothing when the attribute is absent;
    - [urljoin base url];
    - [fetch_document name url]: [context.fetch_resource(name, url)] and the
      parsing of the file fetched, or the exception either raises. *)
Class Web : Type := {
  document : Type;
  element : Type;
  xpath : string -> document -> list element;
  findall : string -> document -> list element;
  get_attr : element -> string -> option string;
  urljoin : string -> string -> string;
  fetch_document : string -> string -> result document
}.

(** The double quote, for the paths that contain one. *)
Definition dq : string := String (ascii_of_nat 34) EmptyString.

(** The selectors of the source, as written there. *)
Definition RESOURCE_ANCHORS : string :=
  ".//li[@class=" +:+ dq +:+ "resource-item" +:+ dq +:+ "]/a".
Definition ACTION_ANCHORS : string :=
  ".//div[@class=" +:+ dq +:+ "actions" +:+ dq +:+ "]//a".
Definition XLSX_LINKS : string :=
  "//li[contains(@class, 'resource-item')]//a[contains(@class, 'resource-url-analytics') and contains(@href, '.xlsx')]".

(** A loop that carries a local variable: [for x in xs: acc = body(acc, x)]. *)
Fixpoint for_fold {A S : Type} (xs : list A) (acc : S) (body : S -> A -> M S) : M S :=
  match xs with
  | [] => ret acc
  | x :: xs' => acc' <- body acc x ;; for_fold xs' acc' body
  end.

(** [max(items, key=lambda x: x[0])] on a non-empty list: the first item
    whose key no other item exceeds. *)
Definition max_by_date {A : Type} (first : Date.datetime * A)
    (others : list (Date.datetime * A)) : Date.datetime * A :=
  fold_left (fun best x => if Date.lt (fst best) (fst x) then x else best) others first.

Section Catalogue.
Context {web : Web}.

(** [context.fetch_resource(name, url)], then [html.fromstring] of the file *)
Definition fetch (name url : string) : M document :=
  fun c => (Ctx (emitted c) (logged c) (fetched c ++ [(name, url)]),
            fetch_document name url).

Definition read_ckan (dataset_url : option string) : M (option string) :=
  match dataset_url with
  | None => raise (RuntimeError "No dataset url")
  | Some url =>
      doc <- fetch "dataset.html" url ;;
      let resource_url :=
        fold_left
          (fun _ res_anchor =>
             let res_href := default EmptyString (get_attr res_anchor "href") in
             Some (urljoin url res_href))
          (findall RESOURCE_ANCHORS doc) None in
      match resource_url with
      | None => raise (RuntimeError "No resource URL on data catalog page!")
      | Some resource_url =>
          doc <- fetch "resource.html" resource_url ;;
          match findall ACTION_ANCHORS doc with
          | action_anchor :: _ => ret (get_attr action_anchor "href")
          | [] => raise (RuntimeError "No data URL on data resource page!")
          end
      end
  end.

(** The loop of [get_most_recent_link] for one link: [dated_links] after it. *)
Definition date_link (dated_links : list (Date.datetime * string)) (link : element)
  : M (list (Date.datetime * string)) :=
  match get_attr link "href" with
  | None => raise TypeError
  | Some href =>
      if Py.contains "17.06.2024" href || matched (re_search old_path_here href)
      then ret dated_links
      else
        match re_search date_here href with
        | Some text =>
            match Date.strptime text with
            | Some date_obj => ret (dated_links ++ [(date_obj, href)])
            | None => raise ValueError
            end
        | None =>
            log Warning ("Link " +:+ href +:+ " does not contain a date") [] ;;
            ret dated_links
        end
  end.

(** [get_most_recent_link(context, doc)], [now] being what [datetime.now()]
    reads when the assertion is reached. *)
Definition get_most_recent_link (now : Date.datetime) (doc : document) : M string :=
  let links := xpath XLSX_LINKS doc in
  dated_links <- for_fold links [] date_link ;;
  match dated_links with
  | [] => raise ValueError
  | first :: others =>
      let latest_link := max_by_date first others in
      match Date.sub_days now 30 with
      | None => raise OverflowError
      | Some limit =>
          if Date.lt limit (fst latest_link) then ret (snd latest_link)
          else raise AssertionError
      end
  end.

End Catalogue.

(** ** A small toolkit to run the model on

    Concrete instances of the two interfaces, used to evaluate the crawler on
    sample inputs: identifiers are the parts joined by dashes (none when
    every part is empty), cleaning trims the text and drops what is left
    empty, and a document is the list of anchors each selector finds in it. *)

Module Sample.

Definition part_text (v : pyval) : string :=
  match v with
  | VNone => EmptyString
  | _ => py_str v
  end.

Definition sample_make_id (parts : list pyval) : option string :=
  if forallb (fun v => String.eqb (part_text v) EmptyString) parts then None
  else Some (Py.join "-" (map part_text parts)).

Definition sample_clean (schema prop : string) (v : pyval) : option string :=
  let t := Py.strip (py_str v) in
  if String.eqb t EmptyString then None else Some t.

#[local] Instance toolkit : Toolkit := {|
  make_id := sample_make_id;
  clean := sample_clean;
  audit_data := fun _ _ => [];
  clean_empty := fun _ _ => eq_refl
|}.

(** A page: the hrefs of the anchors found by each of the three selectors. *)
Record page : Type := Page {
  resource_anchors : list (option string);
  action_anchors : list (option string);
  xlsx_links : list (option string)
}.

Definition select (path : string) (d : page) : list (option string) :=
  if String.eqb path RESOURCE_ANCHORS then resource_anchors d
  else if String.eqb path ACTION_ANCHORS then action_anchors d
  else if String.eqb path XLSX_LINKS then xlsx_links d
  else [].

(** A site of two pages: the catalogue at [/catalog], whose resource item
    leads to [/catalog/res], and anything else not found. *)
Definition site (name url : string) : result page :=
  if String.eqb url "/catalog" then Ok (Page [Some "res"] [] [])
  else if String.eqb url "/catalog/res" then Ok (Page [] [Some "/data.xlsx"; Some "/other"] [])
  else Raise (RuntimeError "not found").

#[local] Instance web : Web := {|
  document := page;
  element := option string;
  xpath := select;
  findall := select;
  get_attr := fun e name => if String.eqb name "href" then e else None;
  urljoin := fun base url => base +:+ "/" +:+ url;
  fetch_document := site
|}.

(** A page listing the given [.xlsx] links. *)
Definition listing (hrefs : list string) : page :=
  Page [] [] (map Some hrefs).

Definition company : entity := Entity "Company" (Some "oc-companies-md-1") [].

(** A full row of the company sheet. *)
Definition row (idno name address directors founders : pyval) : gmap string pyval :=
  <[COL_IDNO := idno]> (<[COL_NAME := name]> (<[COL_ADDRESS := address]>
  (<[COL_INCORPORATION := VStr "2001-02-03"]> (<[COL_DISSOLUTION := VNone]>
  (<[COL_LEGAL_FORM := VStr "SRL"]> (<[COL_DIRECTORS := directors]>
  (<[COL_FOUNDERS := founders]> ∅))))))).

(** A row with a tax id, one director and no founders. *)
Definition sample_row : gmap string pyval :=
  row (VStr "1003600000000") (VStr "Alfa SRL") (VStr "Chisinau")
    (VStr "Ana Popescu [Director]") VNone.

(** An empty row: every cell null. *)
Definition blank_row : gmap string pyval :=
  row VNone VNone VNone VNone VNone.

End Sample.

(** ** What a run adds to the context *)

(** The context after more entities and log records. *)
Definition extend (c : ctx) (es : list entity) (ls : list log_record) : ctx :=
  Ctx (emitted c ++ es) (logged c ++ ls) (fetched c).

(** The entities a computation emits when run from [c]. *)
Definition new_emitted {A : Type} (m : M A) (c : ctx) : list entity :=
  skipn (length (emitted c)) (emitted (fst (m c))).

(** The values an entity holds for a property. *)
Definition prop_values (e : entity) (prop : string) : list string :=
  map snd (List.filter (fun p => String.eqb (fst p) prop) (ent_props e)).

Definition is_company (e : entity) : bool :=
  String.eqb (ent_schema e) "Company".

(** The records derived from the director, founder and owner lists. *)
Definition is_sub_record (e : entity) : bool :=
  String.eqb (ent_schema e) "LegalEntity"
  || String.eqb (ent_schema e) "Directorship"
  || String.eqb (ent_schema e) "Ownership".

(** The Company record comes first, the derived records after it. *)
Definition company_first (es : list entity) : Prop :=
  exists company subs,
    es = company :: subs /\ is_company company = true /\ forallb is_sub_record subs = true.

(** The derived records come first, the Company record after them. *)
Definition company_last (es : list entity) : Prop :=
  exists subs company,
    es = subs ++ [company] /\ is_company company = true /\ forallb is_sub_record subs = true.

(** The ids of the Company records among the entities. *)
Definition company_ids (es : list entity) : list (option string) :=
  map ent_id (List.filter is_company es).

Section Records.
Context {tk : Toolkit}.

(** The values an entity of [schema] keeps when [v] is added to [prop]. *)
Definition kept (schema prop : string) (v : pyval) : list string :=
  match v with
  | VNone => []
  | _ =>
      match clean schema prop v with
      | Some t => [t]
      | None => []
      end
  end.

(** Name and role of a director candidate: the text before the last ['['],
    trimmed, and the text after it without [']'], trimmed; no role when the
    candidate has no ['[']. *)
Definition director_entry (candidate : string) : string * pyval :=
  match Py.rcut "[" candidate with
  | Some (name, role) => (Py.strip name, VStr (Py.strip (Py.replace "]" EmptyString role)))
  | None => (Py.strip candidate, VNone)
  end.

(** The LegalEntity and the Directorship of a director. *)
Definition director_records (company : entity) (name : string) (role : pyval)
  : list entity :=
  let cid := of_opt (ent_id company) in
  let dir := add (Entity "LegalEntity" (make_id [cid; VStr name]) []) "name" (VStr name) in
  [ dir;
    add (add (add (Entity "Directorship"
                     (make_id [VStr "Directorship"; cid; VStr name; role]) [])
                "organization" cid)
           "director" (of_opt (ent_id dir)))
      "role" role ].

(** What one director candidate contributes to the stream. *)
Definition director_emits (company : entity) (candidate : string) : list entity :=
  let '(name, role) := director_entry candidate in
  if (Py.len name <? 3)%nat then [] else director_records company name role.

Definition directors_records (company : entity) (directors : pyval) : list entity :=
  match directors with
  | VStr s => flat_map (director_emits company) (Py.split "]," s)
  | _ => []
  end.

(** Name and share of a founder (or name and country of an owner): every
    [')'] removed, then the text before the last ['('], trimmed, and the
    text after it as it stands. *)
Definition founder_entry (candidate : string) : string * pyval :=
  let candidate := Py.replace ")" EmptyString candidate in
  match Py.rcut "(" candidate with
  | Some (name, share) => (Py.strip name, VStr share)
  | None => (Py.strip candidate, VNone)
  end.

(** The LegalEntity and the Ownership of a founder, when the toolkit keeps
    a name for the entity. *)
Definition founder_records (company : entity) (name : string) (share : pyval)
  : list entity :=
  let cid := of_opt (ent_id company) in
  let found := add (Entity "LegalEntity" (make_id [cid; VStr name]) []) "name" (VStr name) in
  if has found "name" then
    [ found;
      add (add (add (Entity "Ownership" (make_id [VStr "Ownership"; cid; VStr name]) [])
                  "asset" cid)
             "owner" (of_opt (ent_id found)))
        "role" share ]
  else [].

(** The founders' records, [entry] giving name and share of a candidate. *)
Definition founders_emits (entry : string -> string * pyval) (company : entity)
    (founders : string) : list entity :=
  flat_map (fun candidate => founder_records company (fst (entry candidate))
                               (snd (entry candidate)))
           (Py.split ")," founders).

Definition founders_records (company : entity) (founders : pyval) : list entity :=
  match founders with
  | VStr s => founders_emits founder_entry company s
  | _ => []
  end.

Definition founders_logs (founders : pyval) : list log_record :=
  match founders with
  | VInt _ | VBool _ => [Log Info ("last line: " +:+ py_str founders) []]
  | _ => []
  end.

(** The beneficial owner of a candidate, with its country. *)
Definition owner_entity (company : entity) (name : string) (country : pyval) : entity :=
  add (add (Entity "LegalEntity" (make_id [of_opt (ent_id company); VStr name]) [])
         "name" (VStr name))
    "country" country.

Definition owner_records (company : entity) (name : string) (country : pyval)
  : list entity :=
  let cid := of_opt (ent_id company) in
  let bo := owner_entity company name country in
  if has bo "name" then
    [ bo;
      add (add (add (Entity "Ownership" (make_id [VStr "Ownership"; cid; VStr name]) [])
                  "asset" cid)
             "owner" (of_opt (ent_id bo)))
        "role" (VStr "beneficiarilor efectivi") ]
  else [].

Definition owner_warnings (company : entity) (name : string) (country : pyval)
  : list log_record :=
  if negb (is_none country) && negb (has (owner_entity company name country) "country")
  then [Log Warning "Unknown country code" [("country", country)]]
  else [].

Definition owners_records (company : entity) (owners : pyval) : list entity :=
  match owners with
  | VStr s =>
      flat_map (fun candidate => owner_records company (fst (founder_entry candidate))
                                   (snd (founder_entry candidate)))
               (Py.split ")," s)
  | _ => []
  end.

Definition owners_logs (company : entity) (owners : pyval) : list log_record :=
  match owners with
  | VStr s =>
      flat_map (fun candidate => owner_warnings company (fst (founder_entry candidate))
                                   (snd (founder_entry candidate)))
               (Py.split ")," s)
  | _ => []
  end.

(** The identity rule of a company. *)
Definition company_id (idno name address : pyval) : option string :=
  match idno with
  | VNone => make_id [name; address]
  | _ => Some ("oc-companies-md-" +:+ py_str idno)
  end.

(** The Company record of a row with identity [i]. *)
Definition company_entity (i : string)
    (idno name address incorporated dissolved legal_form : pyval) : entity :=
  add (add (add (add (add (add (add (Entity "Company" (Some i) [])
    "name" name) "taxNumber" idno) "incorporationDate" incorporated)
    "dissolutionDate" dissolved) "jurisdiction" (VStr "md")) "address" address)
    "legalForm" legal_form.

(** The columns [parse_company] pops, in the order it pops them. *)
Definition POPPED : list string :=
  [ COL_IDNO; COL_NAME; COL_ADDRESS; COL_INCORPORATION; COL_DISSOLUTION;
    COL_LEGAL_FORM; COL_DIRECTORS; COL_FOUNDERS; COL_OWNERS ].

(** The columns of a row left for the audit. *)
Definition leftover (data : gmap string pyval) : gmap string pyval :=
  fold_left (fun m k => delete k m) POPPED data.

(** A row whose identity can be derived. *)
Definition identifiable (data : gmap string pyval) : Prop :=
  exists idno name address,
    data !! COL_IDNO = Some idno /\ data !! COL_NAME = Some name
    /\ data !! COL_ADDRESS = Some address
    /\ is_Some (company_id idno name address).

(** The log record of a row without identity. *)
Definition no_key_error (idno name address : pyval) : log_record :=
  Log Error "Cannot generate key" [("idno", idno); ("name", name); ("address", address)].

(** The progress message after row [idx]. *)
Definition progress (idx : N) : M unit :=
  if (0 <? idx)%N && (idx mod 10000 =? 0)%N
  then log Info ("Read " +:+ Py.str_of_int (Z.of_N idx) +:+ " companies...") []
  else ret tt.

End Records.

(** ** The founders rule as the specification words it *)

(** The specification has only the closing parentheses at the end of a
    candidate stripped, where the code removes every one. *)
Module Worded.

(** [s.rstrip(")")] *)
Fixpoint strip_trailing_paren (s : string) : string :=
  match s with
  | EmptyString => EmptyString
  | String a s' =>
      match strip_trailing_paren s' with
      | EmptyString => if Ascii.eqb a ")" then EmptyString else String a EmptyString
      | r => String a r
      end
  end.

Definition founder_entry_worded (candidate : string) : string * pyval :=
  let candidate := strip_trailing_paren candidate in
  match Py.rcut "(" candidate with
  | Some (name, share) => (Py.strip name, VStr share)
  | None => (Py.strip candidate, VNone)
  end.

End Worded.

(** ** The recency selector, link by link *)

(** A link the selector skips as known to be outdated. *)
Definition stale (href : string) : bool :=
  Py.contains "17.06.2024" href || matched (re_search old_path_here href).

(** The date a link carries: none when it is stale or shows no date, else
    what [strptime] makes of the date found (nothing for digits that are no
    calendar date). *)
Definition link_date (href : string) : option (option Date.datetime) :=
  if stale href then None
  else
    match re_search date_here href with
    | Some text => Some (Date.strptime text)
    | None => None
    end.

(** Every date found in a link that is not stale is a calendar date. *)
Definition well_dated (hrefs : list string) : bool :=
  forallb (fun href => match link_date href with Some None => false | _ => true end) hrefs.

(** The dated candidates, in document order. *)
Definition dated_candidates (hrefs : list string) : list (Date.datetime * string) :=
  flat_map (fun href => match link_date href with
                        | Some (Some d) => [(d, href)]
                        | _ => []
                        end) hrefs.

(** The warnings for the links without a date. *)
Definition undated_warnings (hrefs : list string) : list log_record :=
  flat_map (fun href =>
              if stale href then []
              else match re_search date_here href with
                   | Some _ => []
                   | None => [Log Warning ("Link " +:+ href +:+ " does not contain a date") []]
                   end) hrefs.

(** Whole days from the date [d] to the day of [now]. *)
Definition days_old (now d : Date.datetime) : Z :=
  (Date.dt_ordinal now - Date.dt_ordinal d)%Z.

(** ** The register of non-profit organizations *)

(** [if v:] *)
Definition truthy (v : pyval) : bool :=
  match v with
  | VNone => false
  | VStr s => negb (String.eqb s EmptyString)
  | VInt n => negb (Z.eqb n 0)
  | VBool b => b
  | VObj _ truth => truth
  end.

(** What [crawl_row] uses of zavod's helpers, both of which only add
    property values to the entity they are given.
    - [address_props full place]: the properties [h.copy_address] adds for
      the address that [h.make_address(context, full=full, place=place)]
      builds;
    - [date_values prop v]: the values [h.apply_date] adds to [prop] for the
      raw date [v], none when it cannot be read. *)
Class Helpers : Type := {
  address_props : pyval -> pyval -> list (string * string);
  date_values : string -> pyval -> list string
}.

(** The columns [crawl_row] pops, in the order it pops them. *)
Definition NONPROFIT_COLUMNS : list string :=
  [ "tax_number"; "name"; "director"; "legal_form"; "address"; "admin_unit_code";
    "incorporation_date"; "dissolution_date" ].

Section Nonprofits.
Context {tk : Toolkit} {hp : Helpers}.

(** [h.copy_address(entity, h.make_address(context, full=full, place=place))] *)
Definition copy_address (e : entity) (full place : pyval) : entity :=
  Entity (ent_schema e) (ent_id e) (ent_props e ++ address_props full place).

(** [h.apply_date(entity, prop, v)] *)
Definition apply_date (e : entity) (prop : string) (v : pyval) : entity :=
  Entity (ent_schema e) (ent_id e)
    (ent_props e ++ map (fun t => (prop, t)) (date_values prop v)).

Definition crawl_row (row : gmap string pyval) : M unit :=
  r <- pop "tax_number" row ;;
  let '(tax_number, row) := r in
  r <- pop "name" row ;;
  let '(name, row) := r in
  r <- pop "director" row ;;
  let '(director, row) := r in
  let entity := make "Organization" in
  let entity := set_id entity (make_id [tax_number; name]) in
  let entity := add entity "name" name in
  r <- pop "legal_form" row ;;
  let '(legal_form, row) := r in
  let entity := add entity "legalForm" legal_form in
  let entity := add entity "country" (VStr "md") in
  let entity := add entity "taxNumber" tax_number in
  r <- pop "address" row ;;
  let '(full, row) := r in
  r <- pop "admin_unit_code" row ;;
  let '(place, row) := r in
  let entity := copy_address entity full place in
  r <- pop "incorporation_date" row ;;
  let '(incorporated, row) := r in
  let entity := apply_date entity "incorporationDate" incorporated in
  r <- pop "dissolution_date" row ;;
  let '(dissolved, row) := r in
  let entity := apply_date entity "dissolutionDate" dissolved in
  (if truthy director then
     let dir := make "Person" in
     let dir := set_id dir (make_id [director]) in
     let dir := add dir "name" director in
     let directorship := make "Directorship" in
     let directorship :=
       set_id directorship (make_id [of_opt (ent_id entity); of_opt (ent_id dir)]) in
     let directorship := add directorship "organization" (of_opt (ent_id entity)) in
     let directorship := add directorship "director" (of_opt (ent_id dir)) in
     emit dir ;;
     emit directorship
   else ret tt) ;;
  emit entity ;;
  audit row [].

(** The Organization record of a row. *)
Definition organization_entity
    (tax_number name legal_form full place incorporated dissolved : pyval) : entity :=
  apply_date
    (apply_date
       (copy_address
          (add (add (add (add (Entity "Organization" (make_id [tax_number; name]) [])
             "name" name) "legalForm" legal_form) "country" (VStr "md"))
             "taxNumber" tax_number)
          full place)
       "incorporationDate" incorporated)
    "dissolutionDate" dissolved.

(** The Person and the Directorship of the director of an organization. *)
Definition nonprofit_director (organization : entity) (director : pyval) : list entity :=
  if truthy director then
    let dir := add (Entity "Person" (make_id [director]) []) "name" director in
    [ dir;
      add (add (Entity "Directorship"
                  (make_id [of_opt (ent_id organization); of_opt (ent_id dir)]) [])
             "organization" (of_opt (ent_id organization)))
        "director" (of_opt (ent_id dir)) ]
  else [].

End Nonprofits.

(** ** More ways to describe a run *)

(** An entity followed by the relationship that refers to it. *)
Definition in_pairs (pairs : list (entity * entity)) : list entity :=
  flat_map (fun p => [fst p; snd p]) pairs.

(** Year, month and day as the digits of a text of the shape [dddd.dd.dd]
    give them. *)
Definition ymd_of (text : string) : Z * Z * Z :=
  (Py.int_of_digits (Py.take 4 text),
   Py.int_of_digits (Py.take 2 (Py.drop 5 text)),
   Py.int_of_digits (Py.take 2 (Py.drop 8 text))).

(** The order of dates written year first. *)
Definition ymd_before (a b : Z * Z * Z) : Prop :=
  let '(y1, m1, d1) := a in
  let '(y2, m2, d2) := b in
  (y1 < y2 \/ (y1 = y2 /\ (m1 < m2 \/ (m1 = m2 /\ d1 < d2))))%Z.

(** A row of cells that holds the label of the name column. *)
Definition is_header_row (cells : list pyval) : bool :=
  existsb (text_is COL_NAME) cells.

(** A sample of the helpers: the address is kept as it is written, a date
    when it is a text. *)
Module SampleHelpers.

#[local] Instance helpers : Helpers := {|
  address_props := fun full place =>
    match full with
    | VStr s => [("address", s)]
    | _ => []
    end;
  date_values := fun prop v =>
    match v with
    | VStr s => [s]
    | _ => []
    end
|}.

(** A full row of the sheet of organizations. *)
Definition row (tax_number name director : pyval) : gmap string pyval :=
  <["tax_number" := tax_number]> (<["name" := name]> (<["director" := director]>
  (<["legal_form" := VStr "Asociatie"]> (<["address" := VStr "Chisinau"]>
  (<["admin_unit_code" := VInt 100]> (<["incorporation_date" := VStr "2001-02-03"]>
  (<["dissolution_date" := VNone]> ∅))))))).

End SampleHelpers.

(** * Properties *)

(** ** The string operations *)

(** The operations agree with Python on sample texts. *)
Example split_samples :
  Py.split "]," "Ana Popescu [Director],Ion Rusu" = ["Ana Popescu [Director"; "Ion Rusu"]
  /\ Py.split ")," "),),a)," = [EmptyString; EmptyString; "a"; EmptyString]
  /\ Py.split "aa" "aaa" = [EmptyString; "a"]
  /\ Py.split ")," EmptyString = [EmptyString].
Proof. repeat split; reflexivity. Qed.

Example cut_samples :
  Py.rsplit1 "[" "Ana [x] Popescu [Director" = ["Ana [x] Popescu "; "Director"]
  /\ Py.rsplit1 "[" "Ion Rusu" = ["Ion Rusu"]
  /\ Py.split1 " (" "Adresa (sediul) (x)" = ["Adresa"; "sediul) (x)"]
  /\ Py.replace ")" EmptyString "a)b)c)" = "abc"
  /\ Py.strip "  Ion  Rusu   " = "Ion  Rusu"
  /\ Py.str_of_int 1003600000000 = "1003600000000"
  /\ Py.str_of_int 0 = "0".
Proof. repeat split; reflexivity. Qed.

(** Texts outside ASCII: the characters are counted, not the bytes, and
    white space is recognised through the encoding.  The last letter of the
    Cyrillic name below ends with the byte [0xA0], which is no space there;
    the no-break space U+00A0 and the em space U+2003 are white space. *)
Example text_samples :
  let no_break_space := String (ascii_of_nat 194) (String (ascii_of_nat 160) EmptyString) in
  let em_space :=
    String (ascii_of_nat 226) (String (ascii_of_nat 128) (String (ascii_of_nat 131)
      EmptyString)) in
  Py.len "Șț" = 2
  /\ String.length "Șț" = 4
  /\ Py.len "Иванов Р" = 8
  /\ Py.strip " Иванов Р " = "Иванов Р"
  /\ Py.rstrip "Иванов Р" = "Иванов Р"
  /\ Py.strip (no_break_space +:+ "Ana Popescu" +:+ em_space +:+ " ") = "Ana Popescu"
  /\ Py.len (no_break_space +:+ "Ana") = 4.
Proof. repeat split; reflexivity. Qed.

Example date_samples :
  Date.ymd2ord 1 1 1 = 1%Z
  /\ Date.ymd2ord 2025 2 1 = 739283%Z
  /\ Date.strptime "2024.02.29" = Some (Date.Datetime 738945 0)
  /\ Date.strptime "2025.02.29" = None
  /\ Date.strptime "2025.13.01" = None
  /\ Date.strptime "0000.01.01" = None
  /\ re_search date_here "/files/list-2025.01.20.xlsx" = Some "2025.01.20"
  /\ re_search date_here "/files/list-2025-01-20.xlsx" = None
  /\ matched (re_search old_path_here "/resources/2019-05/list.xlsx") = true.
Proof. repeat split; reflexivity. Qed.

Lemma split_scan_skip sep k s :
  Py.split_scan sep k s = Py.split_scan sep 0 (Py.drop k s).
Proof.
  revert k. induction s as [|a s IH]; intros [|k]; try reflexivity.
  cbn [Py.split_scan Py.drop]. apply IH.
Qed.

Lemma length_drop k s : String.length (Py.drop k s) <= String.length s.
Proof.
  revert s. induction k as [|k IH]; intros [|a s]; cbn [Py.drop String.length]; try lia.
  specialize (IH s). lia.
Qed.

Lemma join_cons_char sep a p ps :
  Py.join sep (String a p :: ps) = String a (Py.join sep (p :: ps)).
Proof. destruct ps; reflexivity. Qed.

Lemma startswith_cut p s :
  Py.startswith p s = true -> s = p +:+ Py.drop (String.length p) s.
Proof.
  revert s. induction p as [|a p IH]; intros s; [reflexivity|].
  destruct s as [|b s]; [discriminate|]. cbn.
  destruct (Ascii.eqb_spec a b) as [->|]; [|discriminate].
  intros H. change (String b s = String b (p +:+ Py.drop (String.length p) s)).
  f_equal. now apply IH.
Qed.

(** Splitting loses nothing: joining the pieces with the separator gives the
    text back. *)
Lemma join_split b sep s :
  Py.join (String b sep) (Py.split (String b sep) s) = s.
Proof.
  unfold Py.split.
  remember (String.length s) as n eqn:Hn.
  assert (Hle : String.length s <= n) by lia. clear Hn.
  revert s Hle. induction n as [|n IH]; intros [|a s] Hle; try reflexivity;
    cbn [String.length] in Hle; [lia|].
  cbn [Py.split_scan].
  destruct (Py.startswith (String b sep) (String a s)) eqn:Hstart.
  - rewrite split_scan_skip.
    pose proof (IH (Py.drop (String.length (String b sep) - 1) s)) as IHd.
    destruct (Py.split_scan (String b sep) 0 _) as [p ps].
    cbn beta iota in IHd |- *.
    change (Py.join (String b sep) (EmptyString :: p :: ps))
      with (String b sep +:+ Py.join (String b sep) (p :: ps)).
    rewrite IHd.
    + symmetry. etransitivity; [apply (startswith_cut _ _ Hstart)|].
      cbn [String.length Nat.sub Py.drop]. now rewrite Nat.sub_0_r.
    + pose proof (length_drop (String.length (String b sep) - 1) s). lia.
  - pose proof (IH s) as IHs.
    destruct (Py.split_scan (String b sep) 0 s) as [p ps].
    cbn beta iota in IHs |- *. rewrite join_cons_char, IHs; [reflexivity | lia].
Qed.

(** ** Contexts and loops *)

Lemma extend_nil (c : ctx) : extend c [] [] = c.
Proof. destruct c. unfold extend. simpl. now rewrite !app_nil_r. Qed.

Lemma extend_extend (c : ctx) a l b m :
  extend (extend c a l) b m = extend c (a ++ b) (l ++ m).
Proof. unfold extend. simpl. now rewrite !app_assoc. Qed.

Lemma emitted_extend (c : ctx) es ls : emitted (extend c es ls) = emitted c ++ es.
Proof. reflexivity. Qed.

Lemma emit_extend (e : entity) (c : ctx) : emit e c = (extend c [e] [], Ok tt).
Proof. unfold emit, extend. now rewrite app_nil_r. Qed.

Lemma log_extend l msg fields (c : ctx) :
  log l msg fields c = (extend c [] [Log l msg fields], Ok tt).
Proof. unfold log, extend. now rewrite app_nil_r. Qed.

Lemma ret_extend {A : Type} (a : A) (c : ctx) : ret a c = (extend c [] [], Ok a).
Proof. now rewrite extend_nil. Qed.

Lemma bind_extend {A B : Type} (m : M A) (k : A -> M B) c es ls a :
  m c = (extend c es ls, Ok a) -> bind m k c = k a (extend c es ls).
Proof. intros H. unfold bind. now rewrite H. Qed.

Lemma bind_run {A B : Type} (m : M A) (k : A -> M B) c :
  bind m k c
  = match m c with
    | (c', Ok a) => k a c'
    | (c', Raise e) => (c', Raise e)
    end.
Proof. reflexivity. Qed.

Lemma bind_raise {A B : Type} (m : M A) (k : A -> M B) c c' e :
  m c = (c', Raise e) -> bind m k c = (c', Raise e).
Proof. intros H. unfold bind. now rewrite H. Qed.

(** A loop whose body only appends to the context appends, candidate after
    candidate, what each body appends. *)
Lemma for_each_extend {A : Type} (body : A -> M unit) f g :
  (forall x c, body x c = (extend c (f x) (g x), Ok tt)) ->
  forall xs c, for_each xs body c = (extend c (flat_map f xs) (flat_map g xs), Ok tt).
Proof.
  intros Hbody xs. induction xs as [|x xs IH]; intros c; simpl.
  - apply ret_extend.
  - rewrite (bind_extend _ _ _ _ _ _ (Hbody x c)), IH, extend_extend. reflexivity.
Qed.

Lemma new_emitted_extend {A : Type} (m : M A) c es ls r :
  m c = (extend c es ls, r) -> new_emitted m c = es.
Proof.
  intros H. unfold new_emitted. rewrite H. simpl.
  rewrite skipn_app, skipn_all, Nat.sub_diag. reflexivity.
Qed.

(** ** Strings *)

(** A text that cannot be cut at a separator does not contain it. *)
Lemma rcut_contains b sep s :
  Py.rcut (String b sep) s = None -> Py.contains (String b sep) s = false.
Proof.
  induction s as [|a s IH]; [reflexivity|].
  cbn [Py.rcut Py.contains].
  destruct (Py.rcut (String b sep) s) as [[l r]|]; [discriminate|].
  rewrite (IH eq_refl), orb_false_r.
  destruct (Py.startswith (String b sep) (String a s)); [discriminate | reflexivity].
Qed.

Lemma rcut_some_contains b sep s l r :
  Py.rcut (String b sep) s = Some (l, r) -> Py.contains (String b sep) s = true.
Proof.
  revert l r. induction s as [|a s IH]; intros l r; [discriminate|].
  cbn [Py.rcut Py.contains].
  destruct (Py.rcut (String b sep) s) as [[l' r']|].
  - intros _. rewrite (IH _ _ eq_refl). apply orb_true_r.
  - destruct (Py.startswith (String b sep) (String a s)); [reflexivity | discriminate].
Qed.

(** The cut the founders and owners loops make of a candidate: the guard
    ["(" in founder] and the unpacking of [rsplit] agree, so the unpacking
    never fails. *)
Lemma paren_cut (s : string) :
  (if Py.contains "(" s then
     match unpack2 (Py.rsplit1 "(" s) with
     | Some (f, p) => ret (f, VStr p)
     | None => raise ValueError
     end
   else ret (s, VNone))
  = ret (match Py.rcut "(" s with
         | Some (f, p) => (f, VStr p)
         | None => (s, VNone)
         end).
Proof.
  unfold Py.rsplit1. destruct (Py.rcut "(" s) as [[l r]|] eqn:Hcut.
  - rewrite (rcut_some_contains _ _ _ _ _ Hcut). reflexivity.
  - rewrite (rcut_contains _ _ _ Hcut). reflexivity.
Qed.

Section Parsers.
Context {tk : Toolkit}.

Lemma add_schema e prop v : ent_schema (add e prop v) = ent_schema e.
Proof.
  unfold add. destruct v; try reflexivity;
    destruct (clean _ _ _); reflexivity.
Qed.

Lemma add_id e prop v : ent_id (add e prop v) = ent_id e.
Proof.
  unfold add. destruct v; try reflexivity;
    destruct (clean _ _ _); reflexivity.
Qed.

(** *** Directors *)

Lemma parse_directors_str company directors c :
  parse_directors company (VStr directors) c
  = (extend c (directors_records company (VStr directors)) [], Ok tt).
Proof.
  unfold parse_directors, directors_records.
  rewrite (for_each_extend _ (director_emits company) (fun _ => [])).
  - f_equal. f_equal. induction (Py.split "]," directors); simpl; congruence.
  - intros director c0.
    unfold director_emits, director_entry, Py.rsplit1.
    destruct (Py.rcut "[" director) as [[l r]|]; simpl;
      (destruct (Py.len _ <? 3)%nat;
       [apply ret_extend
       | rewrite (bind_extend _ _ _ _ _ _ (emit_extend _ _)), emit_extend, extend_extend;
         reflexivity]).
Qed.

Lemma parse_directors_run company directors c :
  parse_directors company directors c
  = if null_or_text directors
    then (extend c (directors_records company directors) [], Ok tt)
    else (c, Raise AttributeError).
Proof.
  destruct directors; try reflexivity.
  - apply ret_extend.
  - apply parse_directors_str.
Qed.

(** *** Founders *)

Lemma parse_founders_str company founders c :
  parse_founders company (VStr founders) c
  = (extend c (founders_emits founder_entry company founders) [], Ok tt).
Proof.
  unfold parse_founders, founders_emits.
  rewrite (for_each_extend _
             (fun candidate => founder_records company (fst (founder_entry candidate))
                                 (snd (founder_entry candidate)))
             (fun _ => [])).
  - f_equal. f_equal. induction (Py.split ")," founders); simpl; congruence.
  - intros founder c0. rewrite paren_cut.
    unfold founder_records, founder_entry, bind, ret, make, set_id.
    cbn [ent_schema ent_id ent_props].
    destruct (Py.rcut "(" (Py.replace ")" EmptyString founder)) as [[l r]|]; cbn [fst snd];
      (match goal with |- context [has ?e "name"] => destruct (has e "name") end;
       cbn [negb];
       [ rewrite emit_extend, emit_extend, extend_extend; reflexivity
       | rewrite extend_nil; reflexivity ]).
Qed.

Lemma parse_founders_run company founders c :
  parse_founders company founders c
  = if null_text_or_int founders
    then (extend c (founders_records company founders) (founders_logs founders), Ok tt)
    else (c, Raise AttributeError).
Proof.
  destruct founders; try reflexivity.
  - apply ret_extend.
  - apply parse_founders_str.
  - apply log_extend.
  - apply log_extend.
Qed.

(** *** Beneficial owners *)

Lemma parse_owners_run company owners c :
  parse_owners company owners c
  = if null_or_text owners
    then (extend c (owners_records company owners) (owners_logs company owners), Ok tt)
    else (c, Raise AttributeError).
Proof.
  destruct owners as [|owners|n|b|text truth]; [apply ret_extend | | reflexivity ..].
  unfold parse_owners, owners_records, owners_logs.
  apply for_each_extend. intros owner c0. rewrite paren_cut.
  unfold owner_records, owner_warnings, owner_entity, founder_entry, bind, ret, make, set_id.
  cbn [ent_schema ent_id ent_props].
  destruct (Py.rcut "(" (Py.replace ")" EmptyString owner)) as [[l r]|]; cbn [fst snd];
    (match goal with |- context [if ?b then log _ _ _ else _] => destruct b end;
     [ rewrite log_extend | ];
     (match goal with |- context [has ?e "name"] => destruct (has e "name") end;
      cbn [negb];
      [ rewrite emit_extend, emit_extend, ?extend_extend; reflexivity
      | rewrite ?extend_nil; reflexivity ])).
Qed.

(** *** A company row *)

Lemma audit_extend data ignore c :
  audit data ignore c = (extend c [] (audit_data data ignore), Ok tt).
Proof. unfold audit, extend. now rewrite app_nil_r. Qed.

Lemma pop_run {B : Type} key data (k : pyval * gmap string pyval -> M B) c :
  bind (pop key data) k c
  = match data !! key with
    | Some v => k (v, delete key data) c
    | None => (c, Raise (KeyError key))
    end.
Proof. unfold bind, pop. destruct (data !! key); reflexivity. Qed.

(** The whole of [parse_company], column by column. *)
Lemma parse_company_run data c :
  parse_company data c
  = match data !! COL_IDNO with
    | None => (c, Raise (KeyError COL_IDNO))
    | Some idno =>
    match data !! COL_NAME with
    | None => (c, Raise (KeyError COL_NAME))
    | Some name =>
    match data !! COL_ADDRESS with
    | None => (c, Raise (KeyError COL_ADDRESS))
    | Some address =>
    match company_id idno name address with
    | None => (extend c [] [no_key_error idno name address], Ok tt)
    | Some i =>
    match data !! COL_INCORPORATION with
    | None => (c, Raise (KeyError COL_INCORPORATION))
    | Some incorporated =>
    match data !! COL_DISSOLUTION with
    | None => (c, Raise (KeyError COL_DISSOLUTION))
    | Some dissolved =>
    match data !! COL_LEGAL_FORM with
    | None => (c, Raise (KeyError COL_LEGAL_FORM))
    | Some legal_form =>
    let company :=
      company_entity i idno name address incorporated dissolved legal_form in
    match data !! COL_DIRECTORS with
    | None => (c, Raise (KeyError COL_DIRECTORS))
    | Some directors =>
    if negb (null_or_text directors) then (c, Raise AttributeError) else
    let c1 := extend c (directors_records company directors) [] in
    match data !! COL_FOUNDERS with
    | None => (c1, Raise (KeyError COL_FOUNDERS))
    | Some founders =>
    if negb (null_text_or_int founders) then (c1, Raise AttributeError) else
    let c2 := extend c1 (founders_records company founders) (founders_logs founders) in
    let owners := default VNone (data !! COL_OWNERS) in
    if negb (null_or_text owners) then (c2, Raise AttributeError) else
    (extend c2 (owners_records company owners ++ [company])
       (owners_logs company owners ++ audit_data (leftover data) IGNORE_COLUMNS),
     Ok tt)
    end end end end end end end end end.
Proof.
  unfold parse_company.
  rewrite pop_run. destruct (data !! COL_IDNO) as [idno|] eqn:Hidno; [|reflexivity].
  cbn beta iota. rewrite pop_run, lookup_delete_ne by done.
  destruct (data !! COL_NAME) as [name|] eqn:Hname; [|reflexivity].
  cbn beta iota. rewrite pop_run, !lookup_delete_ne by done.
  destruct (data !! COL_ADDRESS) as [address|] eqn:Haddress; [|reflexivity].
  cbn beta iota zeta.
  replace (match idno with
           | VNone => set_id (make "Company") (make_id [name; address])
           | _ => set_id (make "Company") (Some ("oc-companies-md-" +:+ py_str idno))
           end)
    with (Entity "Company" (company_id idno name address) [])
    by (destruct idno; reflexivity).
  cbn [ent_id]. destruct (company_id idno name address) as [i|]; [|apply log_extend].
  rewrite pop_run, !lookup_delete_ne by done.
  destruct (data !! COL_INCORPORATION) as [incorporated|]; [|reflexivity].
  cbn beta iota. rewrite pop_run, !lookup_delete_ne by done.
  destruct (data !! COL_DISSOLUTION) as [dissolved|]; [|reflexivity].
  cbn beta iota. rewrite pop_run, !lookup_delete_ne by done.
  destruct (data !! COL_LEGAL_FORM) as [legal_form|]; [|reflexivity].
  cbn beta iota. rewrite pop_run, !lookup_delete_ne by done.
  destruct (data !! COL_DIRECTORS) as [directors|]; [|reflexivity].
  cbn beta iota.
  fold (company_entity i idno name address incorporated dissolved legal_form).
  set (company := company_entity i idno name address incorporated dissolved legal_form).
  rewrite bind_run, parse_directors_run.
  destruct (null_or_text directors); [|reflexivity]. cbn [negb].
  rewrite pop_run, !lookup_delete_ne by done.
  destruct (data !! COL_FOUNDERS) as [founders|]; [|reflexivity].
  cbn beta iota. rewrite bind_run, parse_founders_run.
  destruct (null_text_or_int founders); [|reflexivity]. cbn [negb].
  unfold pop_default, leftover, POPPED. cbn [fold_left].
  rewrite !lookup_delete_ne by done.
  destruct (data !! COL_OWNERS) as [owners|] eqn:Howners;
    cbn [default from_option id];
    [ | rewrite (delete_id _ COL_OWNERS) by (rewrite !lookup_delete_ne by done; exact Howners) ];
    rewrite bind_run, parse_owners_run;
    [ destruct (null_or_text owners); [|reflexivity] | ];
    cbn [null_or_text negb];
    rewrite bind_run, emit_extend, audit_extend, !extend_extend;
    rewrite <- ?app_assoc; reflexivity.
Qed.

End Parsers.

(** ** Schemas of the emitted records *)

Section Schemas.
Context {tk : Toolkit}.

Lemma is_sub_record_add e prop v : is_sub_record (add e prop v) = is_sub_record e.
Proof. unfold is_sub_record. now rewrite add_schema. Qed.

Lemma is_company_add e prop v : is_company (add e prop v) = is_company e.
Proof. unfold is_company. now rewrite add_schema. Qed.

Lemma forallb_flat_map {A B : Type} (p : B -> bool) (f : A -> list B) xs :
  (forall x, forallb p (f x) = true) -> forallb p (flat_map f xs) = true.
Proof.
  intros Hf. induction xs as [|x xs IH]; [reflexivity|].
  simpl. now rewrite forallb_app, Hf, IH.
Qed.

Lemma director_records_sub company name role :
  forallb is_sub_record (director_records company name role) = true.
Proof.
  unfold director_records. cbn [forallb].
  now rewrite !is_sub_record_add.
Qed.

Lemma directors_records_sub company directors :
  forallb is_sub_record (directors_records company directors) = true.
Proof.
  destruct directors as [|s|n|b|text truth]; try reflexivity.
  apply forallb_flat_map. intros candidate. unfold director_emits.
  destruct (director_entry candidate) as [name role].
  destruct (Py.len name <? 3)%nat; [reflexivity | apply director_records_sub].
Qed.

Lemma founder_records_sub company name share :
  forallb is_sub_record (founder_records company name share) = true.
Proof.
  unfold founder_records. destruct (has _ _); [|reflexivity].
  cbn [forallb]. now rewrite !is_sub_record_add.
Qed.

Lemma founders_records_sub company founders :
  forallb is_sub_record (founders_records company founders) = true.
Proof.
  destruct founders as [|s|n|b|text truth]; try reflexivity.
  apply forallb_flat_map. intros candidate. apply founder_records_sub.
Qed.

Lemma owner_records_sub company name country :
  forallb is_sub_record (owner_records company name country) = true.
Proof.
  unfold owner_records, owner_entity. destruct (has _ _); [|reflexivity].
  cbn [forallb]. now rewrite !is_sub_record_add.
Qed.

Lemma owners_records_sub company owners :
  forallb is_sub_record (owners_records company owners) = true.
Proof.
  destruct owners as [|s|n|b|text truth]; try reflexivity.
  apply forallb_flat_map. intros candidate. apply owner_records_sub.
Qed.

Lemma sub_record_not_company e : is_sub_record e = true -> is_company e = false.
Proof.
  unfold is_sub_record, is_company.
  destruct (String.eqb_spec (ent_schema e) "Company") as [->|]; [|reflexivity].
  discriminate.
Qed.

Lemma company_ids_subs subs :
  forallb is_sub_record subs = true -> company_ids subs = [].
Proof.
  unfold company_ids. induction subs as [|e subs IH]; [reflexivity|].
  cbn [forallb List.filter]. intros [He Hs]%andb_prop.
  rewrite (sub_record_not_company _ He). auto.
Qed.

Lemma company_entity_schema i idno name address incorporated dissolved legal_form :
  is_company (company_entity i idno name address incorporated dissolved legal_form) = true.
Proof. unfold company_entity. now rewrite !is_company_add. Qed.

Lemma company_entity_id i idno name address incorporated dissolved legal_form :
  ent_id (company_entity i idno name address incorporated dissolved legal_form) = Some i.
Proof. unfold company_entity. now rewrite !add_id. Qed.

(** What a row that is processed to its end emits: nothing when it has no
    identity, else the derived records and then the Company. *)
Lemma parse_company_ok data c idno name address :
  data !! COL_IDNO = Some idno -> data !! COL_NAME = Some name ->
  data !! COL_ADDRESS = Some address ->
  snd (parse_company data c) = Ok tt ->
  match company_id idno name address with
  | None => parse_company data c = (extend c [] [no_key_error idno name address], Ok tt)
  | Some i =>
      exists subs company,
        new_emitted (parse_company data) c = subs ++ [company]
        /\ forallb is_sub_record subs = true
        /\ is_company company = true /\ ent_id company = Some i
  end.
Proof.
  intros Hidno Hname Haddress. unfold new_emitted.
  rewrite parse_company_run, Hidno, Hname, Haddress.
  destruct (company_id idno name address) as [i|]; [|reflexivity].
  destruct (data !! COL_INCORPORATION) as [incorporated|]; [|discriminate].
  destruct (data !! COL_DISSOLUTION) as [dissolved|]; [|discriminate].
  destruct (data !! COL_LEGAL_FORM) as [legal_form|]; [|discriminate].
  cbv zeta.
  set (company := company_entity i idno name address incorporated dissolved legal_form).
  destruct (data !! COL_DIRECTORS) as [directors|]; [|discriminate].
  assert (Hend : forall directors founders owners ls,
    exists subs company0,
      skipn (length (emitted c))
        (emitted (fst (extend (extend (extend c (directors_records company directors) [])
                         (founders_records company founders) (founders_logs founders))
                         (owners_records company owners ++ [company]) ls, Ok tt)))
      = subs ++ [company0]
      /\ forallb is_sub_record subs = true
      /\ is_company company0 = true /\ ent_id company0 = Some i).
  { intros ds fs os ls.
    exists (directors_records company ds ++ founders_records company fs
            ++ owners_records company os), company.
    cbn [fst]. rewrite !emitted_extend, <- !app_assoc.
    rewrite skipn_app, skipn_all, Nat.sub_diag. cbn [skipn app].
    rewrite !forallb_app, directors_records_sub, founders_records_sub, owners_records_sub.
    repeat split; [apply company_entity_schema | apply company_entity_id]. }
  destruct (null_or_text directors); [|discriminate]. cbn [negb].
  destruct (data !! COL_FOUNDERS) as [founders|]; [|discriminate].
  destruct (null_text_or_int founders); [|discriminate]. cbn [negb].
  destruct (null_or_text (default VNone (data !! COL_OWNERS))); [|discriminate].
  intros _. apply Hend.
Qed.

End Schemas.

(** ** The company rows: claims C2, C3, C4 and C10 *)

Section CompanyRows.
Context {tk : Toolkit}.

(** C2, as amended.  For every company row with a derivable identity that
    is processed to its end, the Company record is the last one emitted for
    the row: every LegalEntity, Directorship and Ownership record derived
    from the row precedes it in the emission stream. *)
Theorem company_emitted_last (data : gmap string pyval) (c : ctx) :
  identifiable data ->
  snd (parse_company data c) = Ok tt ->
  company_last (new_emitted (parse_company data) c).
Proof.
  intros (idno & name & address & Hidno & Hname & Haddress & [i Hi]) Hok.
  pose proof (parse_company_ok data c idno name address Hidno Hname Haddress Hok) as H.
  rewrite Hi in H. destruct H as (subs & company & Hnew & Hsubs & Hcompany & _).
  exists subs, company. auto.
Qed.

(** C3.  The identity of a company row that is processed to its end: with
    a tax id, the one Company record emitted has the id ["oc-companies-md-"]
    followed by the tax id, whatever name and address are; without one, its
    id is [make_id] of name and address (and nothing is emitted when that
    gives no id), so that any other row without tax id and with the same
    name and address gets the same id. *)
Theorem company_identity (data : gmap string pyval) (c : ctx) (idno name address : pyval) :
  data !! COL_IDNO = Some idno ->
  data !! COL_NAME = Some name ->
  data !! COL_ADDRESS = Some address ->
  snd (parse_company data c) = Ok tt ->
  (idno <> VNone ->
   company_ids (new_emitted (parse_company data) c)
   = [Some ("oc-companies-md-" +:+ py_str idno)])
  /\ (idno = VNone ->
      company_ids (new_emitted (parse_company data) c)
      = match make_id [name; address] with
        | Some i => [Some i]
        | None => []
        end)
  /\ (idno = VNone ->
      forall data' c',
        data' !! COL_IDNO = Some VNone ->
        data' !! COL_NAME = Some name ->
        data' !! COL_ADDRESS = Some address ->
        snd (parse_company data' c') = Ok tt ->
        company_ids (new_emitted (parse_company data') c')
        = company_ids (new_emitted (parse_company data) c)).
Proof.
  assert (Hids : forall d c0 v n a,
    d !! COL_IDNO = Some v -> d !! COL_NAME = Some n -> d !! COL_ADDRESS = Some a ->
    snd (parse_company d c0) = Ok tt ->
    company_ids (new_emitted (parse_company d) c0)
    = match company_id v n a with Some i => [Some i] | None => [] end).
  { intros d c0 v n a Hv Hn Ha Hok.
    pose proof (parse_company_ok d c0 v n a Hv Hn Ha Hok) as H.
    destruct (company_id v n a) as [i|].
    - destruct H as (subs & company & -> & Hsubs & Hcompany & Hid).
      unfold company_ids in *. rewrite List.filter_app, map_app.
      fold (company_ids subs). rewrite (company_ids_subs _ Hsubs).
      cbn [List.filter]. rewrite Hcompany. cbn. now rewrite Hid.
    - rewrite (new_emitted_extend _ _ _ _ _ H). reflexivity. }
  intros Hidno Hname Haddress Hok.
  rewrite (Hids _ _ _ _ _ Hidno Hname Haddress Hok).
  split; [|split].
  - intros Hsome. destruct idno; [congruence | reflexivity ..].
  - intros ->. reflexivity.
  - intros -> data' c' Hidno' Hname' Haddress' Hok'.
    now rewrite (Hids _ _ _ _ _ Hidno' Hname' Haddress' Hok').
Qed.

(** C4.  A row for which no identity can be derived (null tax id, and
    [make_id] of name and address gives nothing) is skipped: [parse_company]
    logs the error and returns normally, nothing is emitted for the row,
    and [parse_companies] goes on with the next row. *)
Theorem unidentified_row_skipped (data : gmap string pyval) (c : ctx) (name address : pyval) :
  data !! COL_IDNO = Some VNone ->
  data !! COL_NAME = Some name ->
  data !! COL_ADDRESS = Some address ->
  make_id [name; address] = None ->
  parse_company data c = (extend c [] [no_key_error VNone name address], Ok tt)
  /\ new_emitted (parse_company data) c = []
  /\ forall headers idx cells rest,
       dict_zip headers cells = data ->
       parse_rows (Some headers) idx (cells :: rest) c
       = (progress idx ;; parse_rows (Some headers) (idx + 1) rest)
           (extend c [] [no_key_error VNone name address]).
Proof.
  intros Hidno Hname Haddress Hid.
  assert (Hrun : parse_company data c
                 = (extend c [] [no_key_error VNone name address], Ok tt)).
  { rewrite parse_company_run, Hidno, Hname, Haddress. cbn [company_id].
    now rewrite Hid. }
  split; [exact Hrun | split].
  - apply (new_emitted_extend _ _ _ _ _ Hrun).
  - intros headers idx cells rest <-. cbn [parse_rows].
    rewrite (bind_extend _ _ _ _ _ _ Hrun). reflexivity.
Qed.

(** C10, as amended.  The beneficial-owners column is optional: a row
    without it, with the eight other columns, a derivable identity, a
    directors cell that is null or a text and a founders cell that is null,
    a text or an integer, is processed to its end and emits the directors'
    records, the founders' records and the Company, no owner record.  A row
    without the tax id, name or address column raises a [KeyError].  A row
    without the incorporation date, dissolution date, legal form or
    directors column raises a [KeyError] when its identity can be derived,
    and so does a row without the founders column when its directors cell,
    if it has one, is null or a text. *)
Theorem required_columns :
  (forall data c idno name address incorporated dissolved legal_form directors founders i,
     data !! COL_IDNO = Some idno -> data !! COL_NAME = Some name ->
     data !! COL_ADDRESS = Some address ->
     data !! COL_INCORPORATION = Some incorporated ->
     data !! COL_DISSOLUTION = Some dissolved ->
     data !! COL_LEGAL_FORM = Some legal_form ->
     data !! COL_DIRECTORS = Some directors -> data !! COL_FOUNDERS = Some founders ->
     data !! COL_OWNERS = None ->
     company_id idno name address = Some i ->
     null_or_text directors = true ->
     null_text_or_int founders = true ->
     let company :=
       company_entity i idno name address incorporated dissolved legal_form in
     parse_company data c
     = (extend c
          (directors_records company directors ++ founders_records company founders
           ++ [company])
          (founders_logs founders ++ audit_data (leftover data) IGNORE_COLUMNS),
        Ok tt))
  /\ (forall data c k,
        In k [COL_IDNO; COL_NAME; COL_ADDRESS] -> data !! k = None ->
        exists k', snd (parse_company data c) = Raise (KeyError k') /\ data !! k' = None)
  /\ (forall data c k,
        identifiable data ->
        In k [COL_INCORPORATION; COL_DISSOLUTION; COL_LEGAL_FORM; COL_DIRECTORS] ->
        data !! k = None ->
        exists k', snd (parse_company data c) = Raise (KeyError k') /\ data !! k' = None)
  /\ (forall data c,
        identifiable data ->
        data !! COL_FOUNDERS = None ->
        (forall directors,
           data !! COL_DIRECTORS = Some directors -> null_or_text directors = true) ->
        exists k', snd (parse_company data c) = Raise (KeyError k') /\ data !! k' = None).
Proof.
  split; [|split; [|split]].
  - intros data c idno name address incorporated dissolved legal_form directors founders i
      Hidno Hname Haddress Hinc Hdis Hlegal Hdirs Hfnd Hown Hid Hsplit Hread company.
    rewrite parse_company_run, Hidno, Hname, Haddress, Hid, Hinc, Hdis, Hlegal, Hdirs,
      Hfnd, Hown, Hsplit, Hread.
    cbv zeta. fold company.
    cbn [default from_option id null_or_text negb owners_records owners_logs].
    rewrite !extend_extend, <- ?app_assoc. reflexivity.
  - intros data c k Hk Hnone. rewrite parse_company_run.
    destruct (data !! COL_IDNO) as [idno|] eqn:Hidno; [|eauto].
    destruct (data !! COL_NAME) as [name|] eqn:Hname; [|eauto].
    destruct (data !! COL_ADDRESS) as [address|] eqn:Haddress; [|eauto].
    cbn [In] in Hk. destruct Hk as [<-|[<-|[<-|[]]]]; congruence.
  - intros data c k (idno & name & address & Hidno & Hname & Haddress & [i Hi]) Hk Hnone.
    rewrite parse_company_run, Hidno, Hname, Haddress, Hi.
    destruct (data !! COL_INCORPORATION) as [incorporated|] eqn:Hinc; [|eauto].
    destruct (data !! COL_DISSOLUTION) as [dissolved|] eqn:Hdis; [|eauto].
    destruct (data !! COL_LEGAL_FORM) as [legal_form|] eqn:Hlegal; [|eauto].
    destruct (data !! COL_DIRECTORS) as [directors|] eqn:Hdirs; [|cbv zeta; eauto].
    cbn [In] in Hk. destruct Hk as [<-|[<-|[<-|[<-|[]]]]]; congruence.
  - intros data c (idno & name & address & Hidno & Hname & Haddress & [i Hi]) Hfnd Hnum.
    rewrite parse_company_run, Hidno, Hname, Haddress, Hi, Hfnd.
    destruct (data !! COL_INCORPORATION) as [incorporated|] eqn:Hinc; [|eauto].
    destruct (data !! COL_DISSOLUTION) as [dissolved|] eqn:Hdis; [|eauto].
    destruct (data !! COL_LEGAL_FORM) as [legal_form|] eqn:Hlegal; [|eauto].
    cbv zeta.
    destruct (data !! COL_DIRECTORS) as [directors|] eqn:Hdirs; [|eauto].
    rewrite (Hnum directors eq_refl). cbn [negb]. eauto.
Qed.

End CompanyRows.

(** *** The company rows on sample rows *)

Lemma sample_row_identifiable : identifiable (tk := Sample.toolkit) Sample.sample_row.
Proof.
  exists (VStr "1003600000000"), (VStr "Alfa SRL"), (VStr "Chisinau").
  repeat split; try reflexivity. eexists. reflexivity.
Defined.

Lemma company_emitted_last_witness :
  company_last (new_emitted (parse_company (tk := Sample.toolkit) Sample.sample_row) ctx0).
Proof.
  apply (company_emitted_last (tk := Sample.toolkit)).
  - exact sample_row_identifiable.
  - vm_compute. reflexivity.
Defined.

(** C2, as stated, fails: the sample row emits the director's LegalEntity and
    the Directorship before the Company, so the Company record is not first. *)
Lemma company_first_fails :
  ~ (forall (tk : Toolkit) (data : gmap string pyval) (c : ctx),
       identifiable data ->
       snd (parse_company data c) = Ok tt ->
       company_first (new_emitted (parse_company data) c)).
Proof.
  intros H.
  destruct (H Sample.toolkit Sample.sample_row ctx0 sample_row_identifiable eq_refl)
    as (company & subs & Heq & Hcompany & _).
  vm_compute in Heq. injection Heq as <- _.
  vm_compute in Hcompany. discriminate.
Qed.

Lemma company_identity_witness :
  company_ids (new_emitted (parse_company (tk := Sample.toolkit) Sample.sample_row) ctx0)
  = [Some "oc-companies-md-1003600000000"].
Proof.
  refine (proj1 (company_identity (tk := Sample.toolkit) Sample.sample_row ctx0
                   (VStr "1003600000000") (VStr "Alfa SRL") (VStr "Chisinau")
                   _ _ _ _) _);
    [reflexivity | reflexivity | reflexivity | vm_compute; reflexivity | discriminate].
Defined.

Lemma unidentified_row_skipped_witness :
  new_emitted (parse_company (tk := Sample.toolkit) Sample.blank_row) ctx0 = [].
Proof.
  refine (proj1 (proj2 (unidentified_row_skipped (tk := Sample.toolkit) Sample.blank_row ctx0
                          VNone VNone _ _ _ _)));
    reflexivity.
Defined.

Lemma required_columns_witness :
  snd (parse_company (tk := Sample.toolkit) Sample.sample_row ctx0) = Ok tt
  /\ (exists k', snd (parse_company (tk := Sample.toolkit)
                       (delete COL_NAME Sample.sample_row) ctx0) = Raise (KeyError k')
                 /\ delete COL_NAME Sample.sample_row !! k' = None)
  /\ (exists k', snd (parse_company (tk := Sample.toolkit)
                       (delete COL_LEGAL_FORM Sample.sample_row) ctx0) = Raise (KeyError k')
                 /\ delete COL_LEGAL_FORM Sample.sample_row !! k' = None)
  /\ (exists k', snd (parse_company (tk := Sample.toolkit)
                       (delete COL_FOUNDERS Sample.sample_row) ctx0) = Raise (KeyError k')
                 /\ delete COL_FOUNDERS Sample.sample_row !! k' = None).
Proof.
  destruct (required_columns (tk := Sample.toolkit)) as (Hopt & Hearly & Hlate & Hfounders).
  split; [|split; [|split]].
  - rewrite (Hopt Sample.sample_row ctx0 (VStr "1003600000000") (VStr "Alfa SRL")
               (VStr "Chisinau") (VStr "2001-02-03") VNone (VStr "SRL")
               (VStr "Ana Popescu [Director]") VNone "oc-companies-md-1003600000000");
      reflexivity.
  - apply (Hearly _ ctx0 COL_NAME); [cbn; auto | reflexivity].
  - apply (Hlate _ ctx0 COL_LEGAL_FORM);
      [| cbn; auto | reflexivity].
    exists (VStr "1003600000000"), (VStr "Alfa SRL"), (VStr "Chisinau").
    repeat split; try reflexivity. eexists. reflexivity.
  - apply (Hfounders _ ctx0);
      [| reflexivity | intros directors Hdirs; vm_compute in Hdirs; now injection Hdirs as <-].
    exists (VStr "1003600000000"), (VStr "Alfa SRL"), (VStr "Chisinau").
    repeat split; try reflexivity. eexists. reflexivity.
Defined.

(** C10, as stated, fails: an empty row of a sheet without the legal-form
    column has no identity, so it is skipped before that column is read and
    no [KeyError] is raised. *)
Lemma missing_column_without_key_error :
  ~ (forall (tk : Toolkit) (data : gmap string pyval) (c : ctx) (k : string),
       In k [COL_IDNO; COL_NAME; COL_ADDRESS; COL_INCORPORATION; COL_DISSOLUTION;
             COL_LEGAL_FORM; COL_DIRECTORS; COL_FOUNDERS] ->
       data !! k = None ->
       exists k', snd (parse_company data c) = Raise (KeyError k')).
Proof.
  intros H.
  destruct (H Sample.toolkit (delete COL_LEGAL_FORM Sample.blank_row) ctx0 COL_LEGAL_FORM)
    as [k' Hk'].
  - cbn. auto 10.
  - reflexivity.
  - vm_compute in Hk'. discriminate.
Qed.

(** ** Cutting at the last separator *)

Lemma contains_drop sep s n :
  Py.contains sep s = false -> Py.contains sep (Py.drop n s) = false.
Proof.
  revert s. induction n as [|n IH]; intros s H; [destruct s; exact H|].
  destruct s as [|a s]; [exact H|].
  cbn [Py.drop]. apply IH. cbn [Py.contains] in H.
  now apply orb_false_elim in H.
Qed.

(** [rcut] cuts at an occurrence of the separator after which there is no
    other. *)
Lemma rcut_spec b sep s l r :
  Py.rcut (String b sep) s = Some (l, r) ->
  s = l +:+ String b sep +:+ r /\ Py.contains (String b sep) r = false.
Proof.
  revert l r. induction s as [|a s IH]; intros l r; [discriminate|].
  cbn [Py.rcut].
  destruct (Py.rcut (String b sep) s) as [[l' r']|] eqn:Hcut.
  - intros [= <- <-]. destruct (IH _ _ eq_refl) as [-> Hr]. split; [reflexivity | exact Hr].
  - destruct (Py.startswith (String b sep) (String a s)) eqn:Hstart; [|discriminate].
    intros [= <- <-]. split.
    + apply (startswith_cut _ _ Hstart).
    + cbn [String.length Py.drop]. apply contains_drop, rcut_contains, Hcut.
Qed.

(** ** Directors and founders: claims C7, C8 and C9 *)

Section Lists.
Context {tk : Toolkit}.

(** How a director candidate is read: without ['['] it is the name and
    there is no role; otherwise it is cut at its last ['[']. *)
Lemma director_entry_cases (candidate : string) :
  (Py.contains "[" candidate = false
   /\ director_entry candidate = (Py.strip candidate, VNone))
  \/ (exists name role,
        candidate = name +:+ "[" +:+ role
        /\ Py.contains "[" role = false
        /\ director_entry candidate
           = (Py.strip name, VStr (Py.strip (Py.replace "]" EmptyString role)))).
Proof.
  unfold director_entry.
  destruct (Py.rcut "[" candidate) as [[name role]|] eqn:Hcut.
  - right. exists name, role. destruct (rcut_spec _ _ _ _ _ Hcut). auto.
  - left. split; [apply rcut_contains, Hcut | reflexivity].
Qed.

(** C8.  For a string directors field, [parse_directors] splits it at
    ["],"] and emits, candidate after candidate, the records of the
    candidate read as a name with an optional role: the text after the last
    ['['] is the role, and there is no role when the candidate has no ['['].
    For ["Ana Popescu [Director],Ion Rusu"] that is exactly two directors:
    Ana Popescu with role Director, then Ion Rusu without role. *)
Theorem directors_split (company : entity) (directors : string) (c : ctx) :
  parse_directors company (VStr directors) c
  = (extend c (flat_map (director_emits company) (Py.split "]," directors)) [], Ok tt)
  /\ (forall candidate,
        (Py.contains "[" candidate = false
         /\ director_entry candidate = (Py.strip candidate, VNone))
        \/ (exists name role,
              candidate = name +:+ "[" +:+ role
              /\ Py.contains "[" role = false
              /\ director_entry candidate
                 = (Py.strip name, VStr (Py.strip (Py.replace "]" EmptyString role)))))
  /\ map director_entry (Py.split "]," "Ana Popescu [Director],Ion Rusu")
     = [("Ana Popescu", VStr "Director"); ("Ion Rusu", VNone)]
  /\ new_emitted (parse_directors company (VStr "Ana Popescu [Director],Ion Rusu")) c
     = director_records company "Ana Popescu" (VStr "Director")
       ++ director_records company "Ion Rusu" VNone.
Proof.
  split; [apply parse_directors_str | split; [apply director_entry_cases | split]].
  - reflexivity.
  - rewrite (new_emitted_extend _ _ _ _ _ (parse_directors_str _ _ _)).
    cbn [directors_records]. vm_compute Py.split. cbn [flat_map].
    unfold director_emits. vm_compute director_entry. reflexivity.
Qed.

(** C9.  The records [parse_directors] emits are those of the candidates
    taken in turn, and a candidate whose name, once the role is split off
    and the whitespace trimmed, has fewer than 3 characters contributes
    nothing, neither LegalEntity nor Directorship, while a candidate with 3
    characters or more contributes both. *)
Theorem short_directors_excluded (company : entity) (directors : string) (c : ctx) :
  new_emitted (parse_directors company (VStr directors)) c
  = flat_map (director_emits company) (Py.split "]," directors)
  /\ forall candidate,
       let name := fst (director_entry candidate) in
       let role := snd (director_entry candidate) in
       (Py.len name < 3 /\ director_emits company candidate = [])
       \/ (3 <= Py.len name
           /\ director_emits company candidate = director_records company name role
           /\ map ent_schema (director_emits company candidate)
              = ["LegalEntity"; "Directorship"]).
Proof.
  split.
  - apply (new_emitted_extend _ _ _ _ _ (parse_directors_str _ _ _)).
  - intros candidate. unfold director_emits.
    destruct (director_entry candidate) as [name role]. cbn [fst snd].
    destruct (Nat.ltb_spec (Py.len name) 3) as [Hshort|Hlong].
    + left. auto.
    + right. repeat split; [exact Hlong|].
      unfold director_records. cbn [map]. now rewrite !add_schema.
Qed.

End Lists.

(** The directors of the example, with the sample toolkit. *)
Example directors_example :
  map (fun e => (ent_schema e, prop_values e "name", prop_values e "role"))
    (new_emitted (parse_directors (tk := Sample.toolkit) Sample.company
                    (VStr "Ana Popescu [Director],Ion Rusu")) ctx0)
  = [ ("LegalEntity", ["Ana Popescu"], []); ("Directorship", [], ["Director"]);
      ("LegalEntity", ["Ion Rusu"], []); ("Directorship", [], []) ].
Proof. reflexivity. Qed.

(** A name of two letters outside ASCII has two characters, whatever the
    bytes of its encoding, and leaves no record. *)
Example short_director_letters :
  map (fun e => (ent_schema e, prop_values e "name", prop_values e "role"))
    (new_emitted (parse_directors (tk := Sample.toolkit) Sample.company
                    (VStr "Șț [Director],Ion Rusu")) ctx0)
  = [ ("LegalEntity", ["Ion Rusu"], []); ("Directorship", [], []) ].
Proof. reflexivity. Qed.

(** A candidate of two characters between two longer ones leaves no record. *)
Example short_director_example :
  map (fun e => (ent_schema e, prop_values e "name", prop_values e "role"))
    (new_emitted (parse_directors (tk := Sample.toolkit) Sample.company
                    (VStr "Ana Popescu [Director], AB [Administrator],Ion Rusu")) ctx0)
  = [ ("LegalEntity", ["Ana Popescu"], []); ("Directorship", [], ["Director"]);
      ("LegalEntity", ["Ion Rusu"], []); ("Directorship", [], []) ].
Proof. reflexivity. Qed.

(** ** Removing a character *)

Lemma join_empty_cons p ps : Py.join EmptyString (p :: ps) = p +:+ Py.join EmptyString ps.
Proof.
  destruct ps as [|q ps]; cbn [Py.join].
  - clear. induction p as [|a p IH]; [reflexivity|].
    change (String a p = String a (p +:+ EmptyString)). now f_equal.
  - reflexivity.
Qed.

(** [s.replace(a, EmptyString)] leaves no [a] in the text. *)
Lemma replace_removes a s :
  Py.contains (String a EmptyString) (Py.replace (String a EmptyString) EmptyString s) = false.
Proof.
  unfold Py.replace, Py.split.
  induction s as [|b s IH]; [reflexivity|].
  cbn [Py.split_scan Py.startswith String.length Nat.sub].
  destruct (Py.split_scan (String a EmptyString) 0 s) as [p ps].
  destruct (Ascii.eqb_spec a b) as [->|Hab].
  - rewrite join_empty_cons. exact IH.
  - rewrite join_empty_cons in *.
    change (String b p +:+ Py.join EmptyString ps) with (String b (p +:+ Py.join EmptyString ps)).
    cbn [Py.contains Py.startswith].
    destruct (Ascii.eqb_spec a b) as [|_]; [contradiction|]. exact IH.
Qed.

(** ** Founders: claim C7 *)

Section Founders.
Context {tk : Toolkit}.

Lemma prop_values_add e prop v q :
  prop_values (add e prop v) q
  = prop_values e q ++ (if String.eqb prop q then kept (ent_schema e) prop v else []).
Proof.
  unfold prop_values, add, kept.
  destruct v; cbn [ent_props];
    try (destruct (String.eqb prop q); now rewrite app_nil_r);
    (destruct (clean (ent_schema e) prop _) as [t|]; cbn [ent_props];
     [ rewrite List.filter_app, map_app; cbn [List.filter fst snd];
       destruct (String.eqb prop q); reflexivity
     | destruct (String.eqb prop q); now rewrite app_nil_r ]).
Qed.

Lemma has_name_added schema i name :
  has (add (Entity schema i []) "name" (VStr name)) "name"
  = matched (clean schema "name" (VStr name)).
Proof.
  unfold has, add. cbn [ent_schema ent_props ent_id].
  destruct (clean schema "name" (VStr name)); reflexivity.
Qed.

(** How a founder candidate is read, every [')'] removed. *)
Lemma founder_entry_cases (candidate : string) :
  let text := Py.replace ")" EmptyString candidate in
  Py.contains ")" text = false
  /\ ((Py.contains "(" text = false /\ founder_entry candidate = (Py.strip text, VNone))
      \/ (exists name share,
            text = name +:+ "(" +:+ share
            /\ Py.contains "(" share = false
            /\ founder_entry candidate = (Py.strip name, VStr share))).
Proof.
  intros text. split; [apply replace_removes|].
  unfold founder_entry. fold text.
  destruct (Py.rcut "(" text) as [[name share]|] eqn:Hcut.
  - right. exists name, share. destruct (rcut_spec _ _ _ _ _ Hcut). auto.
  - left. split; [apply rcut_contains, Hcut | reflexivity].
Qed.

(** C7, as amended.  For a string founders field, [parse_founders] splits
    it at ["),"] and emits, candidate after candidate, the records of the
    candidate read with every [')'] removed (not only a trailing one): the
    text after the last ['('] is the share, the trimmed text before it the
    name.  A candidate whose name the toolkit keeps nothing of, as is the
    case of the empty name, contributes nothing; any other contributes a
    LegalEntity and an Ownership whose role is the share as the toolkit
    keeps it, or absent when there is no share.  For
    ["SRL Alfa (50%),SRL Beta (50%)"] the candidates are SRL Alfa and SRL
    Beta, each with role ["50%"]. *)
Theorem founders_split (company : entity) (founders : string) (c : ctx) :
  parse_founders company (VStr founders) c
  = (extend c (founders_emits founder_entry company founders) [], Ok tt)
  /\ (forall candidate,
        let text := Py.replace ")" EmptyString candidate in
        Py.contains ")" text = false
        /\ ((Py.contains "(" text = false
             /\ founder_entry candidate = (Py.strip text, VNone))
            \/ (exists name share,
                  text = name +:+ "(" +:+ share
                  /\ Py.contains "(" share = false
                  /\ founder_entry candidate = (Py.strip name, VStr share))))
  /\ (forall share, founder_records company EmptyString share = [])
  /\ (forall name share,
        (clean "LegalEntity" "name" (VStr name) = None
         /\ founder_records company name share = [])
        \/ (exists found own,
              founder_records company name share = [found; own]
              /\ ent_schema found = "LegalEntity"
              /\ is_Some (clean "LegalEntity" "name" (VStr name))
              /\ ent_schema own = "Ownership"
              /\ prop_values own "role" = kept "Ownership" "role" share))
  /\ map founder_entry (Py.split ")," "SRL Alfa (50%),SRL Beta (50%)")
     = [("SRL Alfa", VStr "50%"); ("SRL Beta", VStr "50%")]
  /\ new_emitted (parse_founders company (VStr "SRL Alfa (50%),SRL Beta (50%)")) c
     = founder_records company "SRL Alfa" (VStr "50%")
       ++ founder_records company "SRL Beta" (VStr "50%").
Proof.
  split; [apply parse_founders_str|].
  split; [apply founder_entry_cases|].
  split; [|split; [|split]].
  - intros share. unfold founder_records.
    now rewrite has_name_added, clean_empty.
  - intros name share. unfold founder_records. rewrite has_name_added.
    destruct (clean "LegalEntity" "name" (VStr name)) as [t|] eqn:Hname; cbn [matched].
    + right. eexists _, _. split; [reflexivity|].
      rewrite !add_schema, !prop_values_add, !add_schema. cbn.
      repeat split; eauto.
    + left. auto.
  - reflexivity.
  - rewrite (new_emitted_extend _ _ _ _ _ (parse_founders_str _ _ _)).
    unfold founders_emits. vm_compute Py.split. cbn [flat_map].
    vm_compute founder_entry. cbn [fst snd]. now rewrite app_nil_r.
Qed.

End Founders.

(** The founders of the example, with the sample toolkit: two Ownership
    records, each with role ["50%"]. *)
Example founders_example :
  map (fun e => (ent_schema e, prop_values e "name", prop_values e "role"))
    (new_emitted (parse_founders (tk := Sample.toolkit) Sample.company
                    (VStr "SRL Alfa (50%),SRL Beta (50%)")) ctx0)
  = [ ("LegalEntity", ["SRL Alfa"], []); ("Ownership", [], ["50%"]);
      ("LegalEntity", ["SRL Beta"], []); ("Ownership", [], ["50%"]) ].
Proof. reflexivity. Qed.

(** A founder whose name ends with a letter encoded with the byte [0xA0]
    at its end keeps the whole of the name. *)
Example founders_letters_example :
  map (fun e => (ent_schema e, prop_values e "name", prop_values e "role"))
    (new_emitted (parse_founders (tk := Sample.toolkit) Sample.company
                    (VStr "Иванов Р (50%)")) ctx0)
  = [ ("LegalEntity", ["Иванов Р"], []); ("Ownership", [], ["50%"]) ].
Proof. reflexivity. Qed.

(** C7, as stated, fails: with only the trailing [')'] stripped the founder
    of ["Firma (Moldova) SRL (50%)"] would be named [Firma (Moldova) SRL];
    the code removes every [')'] and names it [Firma (Moldova SRL]. *)
Lemma founders_trailing_paren_fails :
  ~ (forall (tk : Toolkit) (company : entity) (founders : string) (c : ctx),
       parse_founders company (VStr founders) c
       = (extend c (founders_emits Worded.founder_entry_worded company founders) [], Ok tt)).
Proof.
  intros H.
  specialize (H Sample.toolkit Sample.company "Firma (Moldova) SRL (50%)" ctx0).
  vm_compute in H. discriminate.
Qed.

(** ** Dates in order *)

Lemma date_lt_spec a b :
  Date.lt a b = true
  <-> (Date.dt_ordinal a < Date.dt_ordinal b
       \/ (Date.dt_ordinal a = Date.dt_ordinal b /\ Date.dt_usec a < Date.dt_usec b))%Z.
Proof.
  unfold Date.lt. rewrite orb_true_iff, andb_true_iff, !Z.ltb_lt, Z.eqb_eq. reflexivity.
Qed.

Lemma date_lt_false a b :
  Date.lt a b = false
  <-> (Date.dt_ordinal b < Date.dt_ordinal a
       \/ (Date.dt_ordinal a = Date.dt_ordinal b /\ Date.dt_usec b <= Date.dt_usec a))%Z.
Proof.
  rewrite <- not_true_iff_false, date_lt_spec. lia.
Qed.

(** [max] with a key: the item chosen is the first of those no other
    exceeds. *)
Lemma max_by_date_split {A : Type} (first : Date.datetime * A) others :
  exists before after,
    first :: others = before ++ max_by_date first others :: after
    /\ Forall (fun p => Date.lt (fst p) (fst (max_by_date first others)) = true) before
    /\ Forall (fun p => Date.lt (fst (max_by_date first others)) (fst p) = false) after.
Proof.
  induction others as [|y others IH] using rev_ind.
  - exists [], []. repeat split; constructor.
  - destruct IH as (before & after & Heq & Hbefore & Hafter).
    unfold max_by_date in *. rewrite fold_left_app. cbn [fold_left].
    set (best := fold_left _ others first) in *.
    destruct (Date.lt (fst best) (fst y)) eqn:Hlt.
    + exists (first :: others), []. rewrite app_comm_cons. repeat split; [|constructor].
      rewrite Heq. apply Forall_app. split; [|constructor].
      * eapply List.Forall_impl; [|exact Hbefore]. cbn beta. intros p Hp.
        apply date_lt_spec in Hp, Hlt. apply date_lt_spec. lia.
      * exact Hlt.
      * eapply List.Forall_impl; [|exact Hafter]. cbn beta. intros p Hp.
        apply date_lt_false in Hp. apply date_lt_spec in Hlt. apply date_lt_spec. lia.
    + exists before, (after ++ [y]). repeat split.
      * rewrite app_comm_cons, Heq, <- app_assoc. reflexivity.
      * exact Hbefore.
      * apply Forall_app. split; [exact Hafter | constructor; [exact Hlt | constructor]].
Qed.

Lemma max_by_date_in {A : Type} (first : Date.datetime * A) others :
  In (max_by_date first others) (first :: others).
Proof.
  destruct (max_by_date_split first others) as (before & after & -> & _).
  apply in_or_app. right. left. reflexivity.
Qed.

Lemma strptime_midnight text d : Date.strptime text = Some d -> Date.dt_usec d = 0%Z.
Proof.
  unfold Date.strptime. destruct (_ && _); [|discriminate]. now intros [= <-].
Qed.

Lemma dated_candidates_midnight hrefs d href :
  In (d, href) (dated_candidates hrefs) -> Date.dt_usec d = 0%Z.
Proof.
  unfold dated_candidates. rewrite in_flat_map. intros (h & _ & Hin).
  unfold link_date in Hin. destruct (stale h); [destruct Hin|].
  destruct (re_search date_here h) as [text|]; [|destruct Hin].
  destruct (Date.strptime text) as [d'|] eqn:Hd; [|destruct Hin].
  destruct Hin as [[= <- _]|[]]. apply (strptime_midnight _ _ Hd).
Qed.

Lemma dated_candidates_fresh hrefs d href :
  In (d, href) (dated_candidates hrefs) -> stale href = false.
Proof.
  unfold dated_candidates. rewrite in_flat_map. intros (h & _ & Hin).
  unfold link_date in Hin. destruct (stale h) eqn:Hstale; [destruct Hin|].
  destruct (re_search date_here h) as [text|]; [|destruct Hin].
  destruct (Date.strptime text) as [d'|]; [|destruct Hin].
  destruct Hin as [[= _ <-]|[]]. exact Hstale.
Qed.

(** ** The catalogue pages: claims C1, C5 and C6 *)

Section Selector.
Context {web : Web}.

(** The loop over the links whose hrefs are all calendar-dated. *)
Lemma date_links_run (links : list element) (hrefs : list string) :
  map (fun link => get_attr link "href") links = map Some hrefs ->
  well_dated hrefs = true ->
  forall acc c,
    for_fold links acc date_link c
    = (extend c [] (undated_warnings hrefs), Ok (acc ++ dated_candidates hrefs)).
Proof.
  revert hrefs. induction links as [|link links IH]; intros [|href hrefs] Hmap Hwell acc c;
    try discriminate.
  - cbn. now rewrite extend_nil, app_nil_r.
  - cbn [map] in Hmap. injection Hmap as Hhref Hmap.
    cbn [well_dated forallb] in Hwell. apply andb_prop in Hwell as [Hone Hwell].
    cbn [for_fold]. unfold bind, date_link at 1. rewrite Hhref.
    unfold dated_candidates, undated_warnings. cbn [flat_map].
    fold (dated_candidates hrefs). fold (undated_warnings hrefs).
    unfold link_date in *. fold (stale href). destruct (stale href).
    + cbn [ret]. rewrite (IH hrefs Hmap Hwell). reflexivity.
    + destruct (re_search date_here href) as [text|].
      * destruct (Date.strptime text) as [d|]; [|discriminate].
        cbn [ret]. rewrite (IH hrefs Hmap Hwell), <- app_assoc. reflexivity.
      * rewrite bind_run, log_extend. cbn [ret].
        rewrite (IH hrefs Hmap Hwell), extend_extend. reflexivity.
Qed.

(** Whatever the links, the loop keeps stale links out of [dated_links]. *)
Lemma date_links_fresh (links : list element) :
  forall acc c c' dated,
    for_fold links acc date_link c = (c', Ok dated) ->
    Forall (fun p => stale (snd p) = false) acc ->
    Forall (fun p => stale (snd p) = false) dated.
Proof.
  induction links as [|link links IH]; intros acc c c' dated.
  - cbn. intros [= _ <-]. auto.
  - cbn [for_fold]. unfold bind, date_link at 1.
    destruct (get_attr link "href") as [href|]; [|discriminate].
    fold (stale href). destruct (stale href) eqn:Hstale.
    + cbn [ret]. apply IH.
    + destruct (re_search date_here href) as [text|].
      * destruct (Date.strptime text) as [d|]; [|discriminate].
        cbn [ret]. intros Hrun Hacc. apply (IH _ _ _ _ Hrun).
        apply Forall_app. split; [exact Hacc | constructor; [exact Hstale | constructor]].
      * rewrite bind_run, log_extend. cbn [ret]. apply IH.
Qed.

(** C5.  The href the recency selector returns is never one that contains
    the marker ["17.06.2024"] or matches the 2019 path pattern: such links
    are left out before the dates are compared, whatever date they show. *)
Theorem stale_link_never_selected (now : Date.datetime) (doc : document)
    (c c' : ctx) (href : string) :
  get_most_recent_link now doc c = (c', Ok href) ->
  Py.contains "17.06.2024" href = false /\ re_search old_path_here href = None.
Proof.
  unfold get_most_recent_link, bind.
  destruct (for_fold _ [] date_link c) as [c1 [dated|e]] eqn:Hloop; [|discriminate].
  destruct dated as [|first others]; [discriminate|].
  destruct (Date.sub_days now 30) as [limit|]; [|discriminate].
  destruct (Date.lt limit _); [|discriminate].
  intros [= _ <-].
  pose proof (date_links_fresh _ _ _ _ _ Hloop (List.Forall_nil _)) as Hfresh.
  rewrite List.Forall_forall in Hfresh.
  specialize (Hfresh _ (max_by_date_in first others)).
  unfold stale in Hfresh. apply orb_false_elim in Hfresh as [Hmarker Hpath].
  split; [exact Hmarker|].
  destruct (re_search old_path_here _); [discriminate | reflexivity].
Qed.

(** C1, as amended.  When every candidate link has an href, the dates found
    in the links that are not stale are calendar dates and at least one
    link is dated, the recency selector settles on the first candidate of
    the latest date: it returns that href when the date is fewer than 30
    days before the day of [now], and fails with an assertion error when
    it is 30 days or more before it (so in particular when it is more than
    30 days before it). *)
Theorem most_recent_link_selected (now : Date.datetime) (doc : document)
    (hrefs : list string) (c : ctx) :
  map (fun link => get_attr link "href") (xpath XLSX_LINKS doc) = map Some hrefs ->
  well_dated hrefs = true ->
  dated_candidates hrefs <> [] ->
  (30 < Date.dt_ordinal now)%Z ->
  (0 <= Date.dt_usec now)%Z ->
  exists before d href after,
    dated_candidates hrefs = before ++ (d, href) :: after
    /\ Forall (fun p => Date.lt (fst p) d = true) before
    /\ Forall (fun p => Date.lt d (fst p) = false) after
    /\ get_most_recent_link now doc c
       = (extend c [] (undated_warnings hrefs),
          if (days_old now d <? 30)%Z then Ok href else Raise AssertionError).
Proof.
  intros Hmap Hwell Hdated Hnow Husec.
  unfold get_most_recent_link.
  rewrite bind_run, (date_links_run _ _ Hmap Hwell). cbn [app].
  destruct (dated_candidates hrefs) as [|first others] eqn:Hcands; [congruence|].
  destruct (max_by_date_split first others) as (before & after & Heq & Hbefore & Hafter).
  destruct (max_by_date first others) as [d href] eqn:Hmax. cbn [fst snd] in *.
  exists before, d, href, after. repeat split; try assumption.
  assert (Hmid : Date.dt_usec d = 0%Z).
  { apply (dated_candidates_midnight hrefs d href). rewrite Hcands, Heq.
    apply in_or_app. right. left. reflexivity. }
  unfold Date.sub_days. destruct (Z.ltb_spec (Date.dt_ordinal now - 30) 1); [lia|].
  unfold days_old.
  destruct (Z.ltb_spec (Date.dt_ordinal now - Date.dt_ordinal d) 30) as [Hyoung|Hold].
  - replace (Date.lt _ d) with true; [reflexivity|].
    symmetry. apply date_lt_spec. cbn [Date.dt_ordinal Date.dt_usec]. lia.
  - replace (Date.lt _ d) with false; [reflexivity|].
    symmetry. apply date_lt_false. cbn [Date.dt_ordinal Date.dt_usec]. lia.
Qed.

(** C6.  [read_ckan] fetches the catalogue page once and fails with a
    [RuntimeError] when the page has no resource anchor; otherwise it takes
    the resource anchor of the page (the last one, should there be several),
    resolves its href against the catalogue URL, fetches that page once,
    and returns the href of its first action anchor, failing with a
    [RuntimeError] when there is none.  Neither failure is retried: the
    fetches made are the one or two just told. *)
Theorem read_ckan_locates (url : string) (page : document) (c : ctx) :
  fetch_document "dataset.html" url = Ok page ->
  let c1 := Ctx (emitted c) (logged c) (fetched c ++ [("dataset.html", url)]) in
  (findall RESOURCE_ANCHORS page = [] ->
   read_ckan (Some url) c
   = (c1, Raise (RuntimeError "No resource URL on data catalog page!")))
  /\ (forall anchors anchor resource,
        findall RESOURCE_ANCHORS page = anchors ++ [anchor] ->
        let resource_url := urljoin url (default EmptyString (get_attr anchor "href")) in
        fetch_document "resource.html" resource_url = Ok resource ->
        let c2 := Ctx (emitted c) (logged c)
                    (fetched c ++ [("dataset.html", url); ("resource.html", resource_url)]) in
        (findall ACTION_ANCHORS resource = [] ->
         read_ckan (Some url) c
         = (c2, Raise (RuntimeError "No data URL on data resource page!")))
        /\ (forall action others,
              findall ACTION_ANCHORS resource = action :: others ->
              read_ckan (Some url) c = (c2, Ok (get_attr action "href")))).
Proof.
  intros Hpage c1.
  assert (Hfetch : fetch "dataset.html" url c = (c1, Ok page)).
  { unfold fetch. now rewrite Hpage. }
  split.
  - intros Hnone. unfold read_ckan. rewrite bind_run, Hfetch, Hnone. reflexivity.
  - intros anchors anchor resource Hanchors resource_url Hresource c2.
    assert (Hrun : read_ckan (Some url) c
                   = match findall ACTION_ANCHORS resource with
                     | action :: _ => (c2, Ok (get_attr action "href"))
                     | [] => (c2, Raise (RuntimeError "No data URL on data resource page!"))
                     end).
    { unfold read_ckan. rewrite bind_run, Hfetch, Hanchors, fold_left_app.
      cbn [fold_left]. fold resource_url.
      rewrite bind_run. unfold fetch. rewrite Hresource.
      assert (Hctx : Ctx (emitted c1) (logged c1)
                       (fetched c1 ++ [("resource.html", resource_url)]) = c2).
      { unfold c1, c2. cbn [emitted logged fetched]. now rewrite <- app_assoc. }
      rewrite Hctx. destruct (findall ACTION_ANCHORS resource); reflexivity. }
    split.
    + intros Hnone. now rewrite Hrun, Hnone.
    + intros action others Hactions. now rewrite Hrun, Hactions.
Qed.

End Selector.

(** *** The catalogue pages on sample pages *)

Lemma most_recent_link_selected_witness :
  exists before d href after,
    dated_candidates ["/files/2025.01.20/list.xlsx"; "/files/2025.01.15/list.xlsx"]
    = before ++ (d, href) :: after
    /\ Forall (fun p => Date.lt (fst p) d = true) before
    /\ Forall (fun p => Date.lt d (fst p) = false) after
    /\ get_most_recent_link (web := Sample.web) (Date.at_time 2025 2 1 12 0 0)
         (Sample.listing ["/files/2025.01.20/list.xlsx"; "/files/2025.01.15/list.xlsx"])
         ctx0
       = (extend ctx0 []
            (undated_warnings ["/files/2025.01.20/list.xlsx"; "/files/2025.01.15/list.xlsx"]),
          if (days_old (Date.at_time 2025 2 1 12 0 0) d <? 30)%Z
          then Ok href else Raise AssertionError).
Proof.
  apply (most_recent_link_selected (web := Sample.web)).
  - reflexivity.
  - reflexivity.
  - vm_compute. discriminate.
  - vm_compute. reflexivity.
  - vm_compute. discriminate.
Defined.

(** The second example of C1: the link of 2025-01-20 is returned on
    2025-02-01. *)
Example recent_link_returned :
  get_most_recent_link (web := Sample.web) (Date.at_time 2025 2 1 12 0 0)
    (Sample.listing ["/files/2025.01.20/list.xlsx"; "/files/2025.01.15/list.xlsx"]) ctx0
  = (ctx0, Ok "/files/2025.01.20/list.xlsx").
Proof. vm_compute. reflexivity. Qed.

(** A latest date more than 30 days back fails the assertion, and so does
    one exactly 30 days back; 29 days back passes. *)
Example old_link_refused :
  snd (get_most_recent_link (web := Sample.web) (Date.at_time 2025 2 1 12 0 0)
         (Sample.listing ["/files/2024.12.15/list.xlsx"; "/files/2024.07.02/list.xlsx"]) ctx0)
  = Raise AssertionError
  /\ snd (get_most_recent_link (web := Sample.web) (Date.at_time 2025 2 1 0 0 0)
            (Sample.listing ["/files/2025.01.02/list.xlsx"]) ctx0)
     = Raise AssertionError
  /\ snd (get_most_recent_link (web := Sample.web) (Date.at_time 2025 2 1 23 59 59)
            (Sample.listing ["/files/2025.01.03/list.xlsx"]) ctx0)
     = Ok "/files/2025.01.03/list.xlsx".
Proof. vm_compute. repeat split; reflexivity. Qed.

(** A link whose digits are no calendar date stops the selector with the
    [ValueError] of [strptime]. *)
Example impossible_date_raises :
  snd (get_most_recent_link (web := Sample.web) (Date.at_time 2025 2 1 12 0 0)
         (Sample.listing ["/files/2025.01.20/list.xlsx"; "/files/2025.02.30/list.xlsx"]) ctx0)
  = Raise ValueError.
Proof. vm_compute. reflexivity. Qed.

(** C1, as stated, fails on its own first example: with candidates dated
    2025-01-15 and 2024-07-02 and the current date 2025-02-01 the latest date
    is 17 days old, and the selector returns its link instead of raising. *)
Lemma stale_example_returns :
  snd (get_most_recent_link (web := Sample.web) (Date.at_time 2025 2 1 12 0 0)
         (Sample.listing ["/files/2025.01.15/list.xlsx"; "/files/2024.07.02/list.xlsx"]) ctx0)
  = Ok "/files/2025.01.15/list.xlsx"
  /\ snd (get_most_recent_link (web := Sample.web) (Date.at_time 2025 2 1 12 0 0)
            (Sample.listing ["/files/2025.01.15/list.xlsx"; "/files/2024.07.02/list.xlsx"])
            ctx0)
     <> Raise AssertionError.
Proof. vm_compute. split; [reflexivity | discriminate]. Qed.

Lemma stale_link_never_selected_witness :
  Py.contains "17.06.2024" "/files/2025.01.20/list.xlsx" = false
  /\ re_search old_path_here "/files/2025.01.20/list.xlsx" = None.
Proof.
  apply (stale_link_never_selected (web := Sample.web) (Date.at_time 2025 2 1 12 0 0)
           (Sample.listing [ "/files/2025.01.20/list.xlsx";
                             "/files/17.06.2024/2025.01.30.xlsx";
                             "/resources/2019-05/2025.01.31.xlsx" ])
           ctx0 ctx0).
  vm_compute. reflexivity.
Defined.

Lemma read_ckan_locates_witness :
  read_ckan (web := Sample.web) (Some "/catalog") ctx0
  = (Ctx [] [] [("dataset.html", "/catalog"); ("resource.html", "/catalog/res")],
     Ok (Some "/data.xlsx")).
Proof.
  destruct (read_ckan_locates (web := Sample.web) "/catalog"
              (Sample.Page [Some "res"] [] []) ctx0 eq_refl) as [_ Hfound].
  destruct (Hfound [] (Some "res") (Sample.Page [] [Some "/data.xlsx"; Some "/other"] [])
              eq_refl eq_refl) as [_ Haction].
  exact (Haction (Some "/data.xlsx") [Some "/other"] eq_refl).
Defined.

(** * Further properties of the crawler *)

(** ** The lists of a company row *)

Section SubLists.
Context {tk : Toolkit}.

Lemma has_add_other e prop v q :
  String.eqb prop q = false -> has (add e prop v) q = has e q.
Proof.
  intros Hne. unfold has, add.
  destruct v; try reflexivity;
    (destruct (clean (ent_schema e) prop _); [|reflexivity];
     cbn [ent_props]; rewrite existsb_app; cbn [existsb fst];
     rewrite Hne; now rewrite !orb_false_r).
Qed.

Lemma has_add_same e prop v :
  has (add e prop v) prop
  = has e prop || match kept (ent_schema e) prop v with [] => false | _ :: _ => true end.
Proof.
  unfold has, add, kept.
  destruct v; try (now rewrite orb_false_r);
    (destruct (clean (ent_schema e) prop _); [|now rewrite orb_false_r];
     cbn [ent_props]; rewrite existsb_app; cbn [existsb fst];
     now rewrite String.eqb_refl).
Qed.

(** The beneficial owners of a string field.  [parse_owners] splits the
    field at ["),"] and does not raise.  A candidate whose name the toolkit
    keeps contributes a LegalEntity, with the country as the toolkit keeps
    it, and an Ownership that refers to it with the fixed role
    ["beneficiarilor efectivi"], whether the country is known or not; any
    other candidate contributes nothing.  A country that is given and not
    kept adds one warning and changes nothing else. *)
Theorem owners_split (company : entity) (owners : string) (c : ctx) :
  parse_owners company (VStr owners) c
  = (extend c
       (flat_map (fun candidate => owner_records company (fst (founder_entry candidate))
                                     (snd (founder_entry candidate)))
                 (Py.split ")," owners))
       (flat_map (fun candidate => owner_warnings company (fst (founder_entry candidate))
                                     (snd (founder_entry candidate)))
                 (Py.split ")," owners)),
     Ok tt)
  /\ (forall name country,
        (clean "LegalEntity" "name" (VStr name) = None
         /\ owner_records company name country = [])
        \/ (exists bo own,
              owner_records company name country = [bo; own]
              /\ is_Some (clean "LegalEntity" "name" (VStr name))
              /\ ent_schema bo = "LegalEntity"
              /\ prop_values bo "country" = kept "LegalEntity" "country" country
              /\ ent_schema own = "Ownership"
              /\ prop_values own "owner" = kept "Ownership" "owner" (of_opt (ent_id bo))
              /\ prop_values own "asset" = kept "Ownership" "asset" (of_opt (ent_id company))
              /\ prop_values own "role"
                 = kept "Ownership" "role" (VStr "beneficiarilor efectivi")))
  /\ (forall name country,
        owner_warnings company name country
        = match country, kept "LegalEntity" "country" country with
          | VNone, _ => []
          | _, [] => [Log Warning "Unknown country code" [("country", country)]]
          | _, _ :: _ => []
          end).
Proof.
  split; [exact (parse_owners_run company (VStr owners) c)|]. split.
  - intros name country. unfold owner_records, owner_entity.
    rewrite has_add_other by reflexivity. rewrite has_name_added.
    destruct (clean "LegalEntity" "name" (VStr name)) as [t|] eqn:Hname; cbn [matched].
    + right. eexists _, _. split; [reflexivity|].
      rewrite !add_schema, !prop_values_add, !add_schema. cbn [ent_schema].
      cbn. repeat split; eauto; now rewrite ?app_nil_r.
    + left. auto.
  - intros name country. unfold owner_warnings, owner_entity.
    rewrite has_add_same, has_add_other, add_schema by reflexivity.
    cbn [ent_schema has ent_props existsb orb].
    destruct country; [reflexivity | ..];
      destruct (kept "LegalEntity" "country" _); reflexivity.
Qed.

(** The three list parsers and the kinds of cell.  [parse_founders] does
    nothing on a null cell, logs an integer or a boolean (["last line"]) and
    passes over it, reads a text without raising (the unpacking of [rsplit]
    cannot fail), and raises an [AttributeError] on any other cell, a float
    or a date, which has no [split].  [parse_directors] and [parse_owners]
    read a null cell and a text without raising and raise an
    [AttributeError] on any other cell, an integer included.  Every such
    error leaves the context as it was, and none of the three emits a
    Company. *)
Theorem list_parsers_errors (company : entity) (v : pyval) (c : ctx) :
  match v with
  | VNone => parse_founders company v c = (c, Ok tt)
  | VStr _ =>
      exists es, parse_founders company v c = (extend c es [], Ok tt)
                 /\ forallb is_sub_record es = true
  | VInt n =>
      parse_founders company v c
      = (extend c [] [Log Info ("last line: " +:+ Py.str_of_int n) []], Ok tt)
  | VBool b =>
      parse_founders company v c
      = (extend c [] [Log Info ("last line: " +:+ (if b then "True" else "False")) []], Ok tt)
  | VObj _ _ => parse_founders company v c = (c, Raise AttributeError)
  end
  /\ match v with
     | VNone | VStr _ =>
         (exists es, parse_directors company v c = (extend c es [], Ok tt)
                     /\ forallb is_sub_record es = true)
         /\ (exists es ls, parse_owners company v c = (extend c es ls, Ok tt)
                           /\ forallb is_sub_record es = true)
     | _ =>
         parse_directors company v c = (c, Raise AttributeError)
         /\ parse_owners company v c = (c, Raise AttributeError)
     end.
Proof.
  split.
  - pose proof (parse_founders_run company v c) as Hf.
    destruct v as [|s|n|[|]|text truth]; try exact Hf.
    + reflexivity.
    + eexists. split; [exact Hf | apply (founders_records_sub company (VStr s))].
  - pose proof (parse_directors_run company v c) as Hd.
    pose proof (parse_owners_run company v c) as Ho.
    destruct v; try (split; [exact Hd | exact Ho]);
      (split;
       [ eexists; split; [exact Hd | apply directors_records_sub]
       | eexists _, _; split; [exact Ho | apply owners_records_sub] ]).
Qed.

End SubLists.

(** ** Entities and the relationships that refer to them *)

Lemma flat_map_in_pairs {A : Type} (P : entity * entity -> Prop) (f : A -> list entity) xs :
  (forall x, f x = [] \/ exists a b, f x = [a; b] /\ P (a, b)) ->
  exists pairs, flat_map f xs = in_pairs pairs /\ Forall P pairs.
Proof.
  intros Hf. induction xs as [|x xs (pairs & Heq & HP)].
  - exists []. split; [reflexivity | constructor].
  - cbn [flat_map]. destruct (Hf x) as [-> | (a & b & -> & Hab)].
    + exists pairs. auto.
    + exists ((a, b) :: pairs). split; [cbn; now rewrite Heq | now constructor].
Qed.

Section Pairs.
Context {tk : Toolkit}.

(** Every record the three list parsers emit comes in a pair: a LegalEntity
    immediately followed by the Directorship (or Ownership) whose director
    (or owner) is that entity's id and whose organization (or asset) is the
    company's id, as far as the toolkit keeps these values.  No relationship
    is emitted without its entity, nor an entity without its relationship. *)
Theorem records_in_pairs (company : entity) (text : string) (c : ctx) :
  (exists pairs,
     new_emitted (parse_directors company (VStr text)) c = in_pairs pairs
     /\ Forall (fun p =>
                  ent_schema (fst p) = "LegalEntity"
                  /\ ent_schema (snd p) = "Directorship"
                  /\ prop_values (snd p) "director"
                     = kept "Directorship" "director" (of_opt (ent_id (fst p)))
                  /\ prop_values (snd p) "organization"
                     = kept "Directorship" "organization" (of_opt (ent_id company)))
               pairs)
  /\ (exists pairs,
        new_emitted (parse_founders company (VStr text)) c = in_pairs pairs
        /\ Forall (fun p =>
                     ent_schema (fst p) = "LegalEntity"
                     /\ ent_schema (snd p) = "Ownership"
                     /\ prop_values (snd p) "owner"
                        = kept "Ownership" "owner" (of_opt (ent_id (fst p)))
                     /\ prop_values (snd p) "asset"
                        = kept "Ownership" "asset" (of_opt (ent_id company)))
                  pairs)
  /\ (exists pairs,
        new_emitted (parse_owners company (VStr text)) c = in_pairs pairs
        /\ Forall (fun p =>
                     ent_schema (fst p) = "LegalEntity"
                     /\ ent_schema (snd p) = "Ownership"
                     /\ prop_values (snd p) "owner"
                        = kept "Ownership" "owner" (of_opt (ent_id (fst p)))
                     /\ prop_values (snd p) "asset"
                        = kept "Ownership" "asset" (of_opt (ent_id company)))
                  pairs).
Proof.
  split; [|split].
  - rewrite (new_emitted_extend _ _ _ _ _ (parse_directors_str _ _ _)).
    apply flat_map_in_pairs. intros candidate. unfold director_emits.
    destruct (director_entry candidate) as [name role].
    destruct (Py.len name <? 3)%nat; [left; reflexivity | right].
    unfold director_records. eexists _, _. split; [reflexivity|].
    cbn [fst snd]. rewrite !add_schema, !prop_values_add, !add_schema.
    cbn. repeat split; now rewrite ?app_nil_r.
  - rewrite (new_emitted_extend _ _ _ _ _ (parse_founders_str _ _ _)).
    apply flat_map_in_pairs. intros candidate. unfold founder_records.
    destruct (has _ "name"); [right | left; reflexivity].
    eexists _, _. split; [reflexivity|].
    cbn [fst snd]. rewrite !add_schema, !prop_values_add, !add_schema.
    cbn. repeat split; now rewrite ?app_nil_r.
  - rewrite (new_emitted_extend _ _ _ _ _ (parse_owners_run _ (VStr text) _)).
    apply flat_map_in_pairs. intros candidate. unfold owner_records, owner_entity.
    destruct (has _ "name"); [right | left; reflexivity].
    eexists _, _. split; [reflexivity|].
    cbn [fst snd]. rewrite !add_schema, !prop_values_add, !add_schema.
    cbn. repeat split; now rewrite ?app_nil_r.
Qed.

End Pairs.

(** ** Rows that fail and rows with stray cells *)

Section RowEdges.
Context {tk : Toolkit}.

Lemma forallb_sub_or es :
  forallb is_sub_record es = true ->
  forallb (fun e => is_sub_record e || is_company e) es = true.
Proof.
  induction es as [|e es IH]; [reflexivity|]. cbn [forallb].
  intros [-> Hes]%andb_prop. cbn. auto.
Qed.

(** What a company row adds to the context, whether it ends or raises. *)
Lemma parse_company_extends data c :
  exists es ls,
    parse_company data c = (extend c es ls, snd (parse_company data c))
    /\ forallb (fun e => is_sub_record e || is_company e) es = true
    /\ (forall e, snd (parse_company data c) = Raise e -> forallb is_sub_record es = true).
Proof.
  rewrite parse_company_run.
  assert (Hstay : forall r : result unit,
    exists es ls, (c, r) = (extend c es ls, snd (c, r))
      /\ forallb (fun e => is_sub_record e || is_company e) es = true
      /\ (forall e, snd (c, r) = Raise e -> forallb is_sub_record es = true)).
  { intros r. exists [], []. now rewrite extend_nil. }
  destruct (data !! COL_IDNO) as [idno|]; [|apply Hstay].
  destruct (data !! COL_NAME) as [name|]; [|apply Hstay].
  destruct (data !! COL_ADDRESS) as [address|]; [|apply Hstay].
  destruct (company_id idno name address) as [i|].
  2:{ eexists _, _. split; [reflexivity|]. split; [reflexivity|]. discriminate. }
  destruct (data !! COL_INCORPORATION) as [incorporated|]; [|apply Hstay].
  destruct (data !! COL_DISSOLUTION) as [dissolved|]; [|apply Hstay].
  destruct (data !! COL_LEGAL_FORM) as [legal_form|]; [|apply Hstay].
  cbv zeta.
  set (company := company_entity i idno name address incorporated dissolved legal_form).
  assert (Hcompany : is_company company = true) by apply company_entity_schema.
  destruct (data !! COL_DIRECTORS) as [directors|]; [|apply Hstay].
  pose proof (directors_records_sub company directors) as Hd.
  assert (Hall : forall es, forallb is_sub_record es = true ->
                 forallb (fun e => is_sub_record e || is_company e) (es ++ [company]) = true).
  { intros es Hes. rewrite forallb_app, (forallb_sub_or _ Hes). cbn.
    now rewrite Hcompany, orb_true_r. }
  assert (Hrec : forall directors founders owners,
                 forallb is_sub_record
                   (directors_records company directors ++ founders_records company founders
                    ++ owners_records company owners) = true).
  { intros ds fs os.
    now rewrite !forallb_app, directors_records_sub, founders_records_sub,
      owners_records_sub. }
  assert (Hrec2 : forall directors founders,
                  forallb is_sub_record
                    (directors_records company directors
                     ++ founders_records company founders) = true).
  { intros ds fs. now rewrite forallb_app, directors_records_sub, founders_records_sub. }
  destruct (null_or_text directors); cbn [negb]; [|apply Hstay].
  destruct (data !! COL_FOUNDERS) as [founders|].
  2:{ eexists _, _. split; [reflexivity|]. split;
        [apply forallb_sub_or, Hd | intros _ _; exact Hd]. }
  destruct (null_text_or_int founders); cbn [negb].
  2:{ eexists _, _. split; [reflexivity|]. split;
        [apply forallb_sub_or, Hd | intros _ _; exact Hd]. }
  destruct (null_or_text (default VNone (data !! COL_OWNERS))); cbn [negb];
    rewrite !extend_extend; eexists _, _; (split; [reflexivity|]).
  - split; [rewrite !app_assoc; apply Hall; rewrite <- !app_assoc; apply Hrec
           | discriminate].
  - split; [apply forallb_sub_or, Hrec2 | intros _ _; apply Hrec2].
Qed.

(** The stream is append-only and holds four kinds of record.  Whatever the
    rows of the sheet, [parse_companies] keeps every entity and log record
    that was there, fetches nothing, and adds only LegalEntity, Directorship,
    Ownership and Company records, also when it ends with an exception. *)
Theorem companies_append_only (rows : list (list pyval)) (c : ctx) :
  exists es ls,
    fst (parse_companies rows c) = extend c es ls
    /\ forallb (fun e => is_sub_record e || is_company e) es = true.
Proof.
  unfold parse_companies. generalize (@None (list string)) 0%N. revert c.
  induction rows as [|cells rows IH]; intros c headers idx.
  - exists [], []. cbn. now rewrite extend_nil.
  - cbn [parse_rows]. destruct headers as [hs|].
    + destruct (parse_company_extends (dict_zip hs cells) c) as (es & ls & Hrun & Hes & _).
      rewrite bind_run, Hrun.
      destruct (snd (parse_company (dict_zip hs cells) c)) as [[]|e].
      * rewrite bind_run.
        assert (Hprog : exists ls', forall c0, progress idx c0 = (extend c0 [] ls', Ok tt)).
        { unfold progress. destruct (_ && _).
          - eexists. intros c0. apply log_extend.
          - exists []. intros c0. now rewrite extend_nil. }
        destruct Hprog as [ls' Hprog]. fold (progress idx). rewrite Hprog.
        destruct (IH (extend (extend c es ls) [] ls') (Some hs) (idx + 1)%N)
          as (es2 & ls2 & Hrest & Hes2).
        rewrite Hrest, !extend_extend. eexists _, _. split; [reflexivity|].
        rewrite !forallb_app, Hes, Hes2. reflexivity.
      * exists es, ls. auto.
    + destruct (existsb _ cells); apply IH.
Qed.

(** A row that raises contributes no Company.  Whatever the exception
    ([KeyError] for a missing column, [AttributeError] for a cell of the
    three lists that cannot be split), the records emitted for the row by
    then are LegalEntity, Directorship and Ownership records only. *)
Theorem failed_row_without_company (data : gmap string pyval) (c : ctx) (e : exn) :
  snd (parse_company data c) = Raise e ->
  forallb is_sub_record (new_emitted (parse_company data) c) = true
  /\ company_ids (new_emitted (parse_company data) c) = [].
Proof.
  intros Hraise.
  destruct (parse_company_extends data c) as (es & ls & Hrun & _ & Hsub).
  rewrite (new_emitted_extend _ _ _ _ _ Hrun).
  split; [eauto | apply company_ids_subs; eauto].
Qed.

(** Directors without their company.  In a row with a derivable identity, a
    text in the directors cell and no founders column, the directors' records
    are emitted before the [KeyError] for the founders column is raised: they
    stay in the stream and the Company they refer to is never emitted. *)
Theorem directors_before_missing_founders (data : gmap string pyval) (c : ctx)
    (idno name address incorporated dissolved legal_form : pyval)
    (directors i : string) :
  data !! COL_IDNO = Some idno -> data !! COL_NAME = Some name ->
  data !! COL_ADDRESS = Some address ->
  data !! COL_INCORPORATION = Some incorporated ->
  data !! COL_DISSOLUTION = Some dissolved ->
  data !! COL_LEGAL_FORM = Some legal_form ->
  data !! COL_DIRECTORS = Some (VStr directors) ->
  data !! COL_FOUNDERS = None ->
  company_id idno name address = Some i ->
  parse_company data c
  = (extend c
       (flat_map
          (director_emits
             (company_entity i idno name address incorporated dissolved legal_form))
          (Py.split "]," directors))
       [],
     Raise (KeyError COL_FOUNDERS)).
Proof.
  intros Hidno Hname Haddress Hinc Hdis Hlegal Hdirs Hfnd Hid.
  rewrite parse_company_run, Hidno, Hname, Haddress, Hid, Hinc, Hdis, Hlegal, Hdirs, Hfnd.
  reflexivity.
Qed.

(** A stray integer in the founders cell does not lose the company: when
    the directors and owners cells are null or texts, the row is processed
    to its end, the integer is logged, and the directors' records, the
    owners' records and the Company are emitted with no founder.  (Only an
    integer is spared: a float or a date in that cell raises, as
    [list_parsers_errors] shows.) *)
Theorem numeric_founders_keep_company (data : gmap string pyval) (c : ctx)
    (idno name address incorporated dissolved legal_form directors : pyval)
    (n : Z) (i : string) :
  data !! COL_IDNO = Some idno -> data !! COL_NAME = Some name ->
  data !! COL_ADDRESS = Some address ->
  data !! COL_INCORPORATION = Some incorporated ->
  data !! COL_DISSOLUTION = Some dissolved ->
  data !! COL_LEGAL_FORM = Some legal_form ->
  data !! COL_DIRECTORS = Some directors ->
  data !! COL_FOUNDERS = Some (VInt n) ->
  company_id idno name address = Some i ->
  null_or_text directors = true ->
  null_or_text (default VNone (data !! COL_OWNERS)) = true ->
  let company := company_entity i idno name address incorporated dissolved legal_form in
  let owners := default VNone (data !! COL_OWNERS) in
  parse_company data c
  = (extend c
       (directors_records company directors ++ owners_records company owners ++ [company])
       (Log Info ("last line: " +:+ Py.str_of_int n) []
        :: owners_logs company owners ++ audit_data (leftover data) IGNORE_COLUMNS),
     Ok tt).
Proof.
  intros Hidno Hname Haddress Hinc Hdis Hlegal Hdirs Hfnd Hid Hd Ho company owners.
  rewrite parse_company_run, Hidno, Hname, Haddress, Hid, Hinc, Hdis, Hlegal, Hdirs, Hfnd.
  cbv zeta. fold company. fold owners. fold owners in Ho.
  rewrite Hd, Ho. cbn [negb null_text_or_int null_or_text is_int orb].
  rewrite !extend_extend. reflexivity.
Qed.

(** An integer in the directors cell, unlike one in the founders cell, aborts
    the row: with identity and the earlier columns in place [parse_company]
    raises an [AttributeError] and leaves the context as it was, so nothing
    is emitted for the row. *)
Theorem numeric_directors_abort_row (data : gmap string pyval) (c : ctx)
    (idno name address incorporated dissolved legal_form : pyval) (n : Z) :
  data !! COL_IDNO = Some idno -> data !! COL_NAME = Some name ->
  data !! COL_ADDRESS = Some address ->
  data !! COL_INCORPORATION = Some incorporated ->
  data !! COL_DISSOLUTION = Some dissolved ->
  data !! COL_LEGAL_FORM = Some legal_form ->
  data !! COL_DIRECTORS = Some (VInt n) ->
  is_Some (company_id idno name address) ->
  parse_company data c = (c, Raise AttributeError).
Proof.
  intros Hidno Hname Haddress Hinc Hdis Hlegal Hdirs [i Hid].
  rewrite parse_company_run, Hidno, Hname, Haddress, Hid, Hinc, Hdis, Hlegal, Hdirs.
  reflexivity.
Qed.

End RowEdges.

(** ** The sheet of companies *)

Lemma startswith_app p s t :
  Py.startswith p s = true -> Py.startswith p (s +:+ t) = true.
Proof.
  revert s. induction p as [|a p IH]; intros [|b s]; try reflexivity; try discriminate.
  change (String b s +:+ t) with (String b (s +:+ t)). cbn [Py.startswith].
  destruct (Ascii.eqb a b); [apply IH | discriminate].
Qed.

(** [split(sep, 1)] cuts at the first occurrence of the separator. *)
Lemma split1_spec b sep s :
  (Py.contains (String b sep) s = false /\ Py.split1 (String b sep) s = [s])
  \/ (exists l r,
        Py.split1 (String b sep) s = [l; r]
        /\ s = l +:+ String b sep +:+ r
        /\ Py.contains (String b sep) l = false).
Proof.
  induction s as [|a s IH].
  - left. split; reflexivity.
  - cbn [Py.split1 Py.contains].
    destruct (Py.startswith (String b sep) (String a s)) eqn:Hstart.
    + right. exists EmptyString, (Py.drop (String.length (String b sep)) (String a s)).
      split; [reflexivity|]. split; [|reflexivity].
      apply (startswith_cut _ _ Hstart).
    + cbn [orb]. destruct IH as [[Hnone ->] | (l & r & -> & Hs & Hl)].
      * left. auto.
      * right. exists (String a l), r. split; [reflexivity|]. split.
        -- rewrite Hs at 1. reflexivity.
        -- cbn [Py.contains]. rewrite Hl, orb_false_r.
           destruct (Py.startswith (String b sep) (String a l)) eqn:Hl'; [|reflexivity].
           apply (startswith_app _ _ (String b sep +:+ r)) in Hl'.
           change (String a l +:+ String b sep +:+ r)
             with (String a (l +:+ String b sep +:+ r)) in Hl'.
           rewrite <- Hs in Hl'. congruence.
Qed.

(** The name of a column.  The header made of a cell is the text of the cell
    up to its first [" ("], which it no longer contains, and the whole text
    when there is no [" ("] in it. *)
Theorem header_of_cases (cell : pyval) :
  (Py.contains " (" (py_str cell) = false /\ header_of cell = py_str cell)
  \/ (exists rest,
        py_str cell = header_of cell +:+ " (" +:+ rest
        /\ Py.contains " (" (header_of cell) = false).
Proof.
  unfold header_of.
  destruct (split1_spec " " "(" (py_str cell)) as [[Hnone ->] | (l & r & -> & Hs & Hl)].
  - left. auto.
  - right. exists r. auto.
Qed.

Lemma fold_insert_other (l : list (string * pyval)) (m : gmap string pyval) h :
  ~ In h (map fst l) ->
  fold_left (fun m kv => <[fst kv := snd kv]> m) l m !! h = m !! h.
Proof.
  revert m. induction l as [|[k w] l IH]; intros m Hnot; [reflexivity|].
  cbn [fold_left fst snd]. cbn [map fst In] in Hnot.
  rewrite IH by tauto. apply lookup_insert_ne. tauto.
Qed.

Lemma fold_insert_found (l : list (string * pyval)) (m : gmap string pyval) h v :
  List.NoDup (map fst l) -> In (h, v) l ->
  fold_left (fun m kv => <[fst kv := snd kv]> m) l m !! h = Some v.
Proof.
  revert m. induction l as [|[k w] l IH]; intros m Hnodup Hin; [destruct Hin|].
  cbn [map fst] in Hnodup. apply List.NoDup_cons_iff in Hnodup as [Hk Hnodup].
  cbn [fold_left fst snd]. destruct Hin as [[= -> ->]|Hin].
  - rewrite fold_insert_other by exact Hk. apply lookup_insert_eq.
  - now apply IH.
Qed.

Lemma combine_fst_in (headers : list string) (cells : list pyval) h :
  In h (map fst (combine headers cells)) -> In h headers.
Proof.
  revert cells. induction headers as [|k headers IH]; intros [|v cells]; cbn; try tauto.
  intros [->|Hin]; eauto.
Qed.

Lemma combine_fst_nodup (headers : list string) (cells : list pyval) :
  List.NoDup headers -> List.NoDup (map fst (combine headers cells)).
Proof.
  revert cells. induction headers as [|k headers IH]; intros [|v cells] Hnodup;
    cbn; try constructor.
  - apply List.NoDup_cons_iff in Hnodup as [Hk _]. intros Hin.
    apply Hk. apply (combine_fst_in _ _ _ Hin).
  - apply List.NoDup_cons_iff in Hnodup as [_ Hnodup]. now apply IH.
Qed.

(** A row read by its headers.  When no header occurs twice, the mapping
    built for a row gives under each header the cell at the header's
    position, and nothing under a header the row is too short for. *)
Theorem dict_zip_lookup (headers : list string) (cells : list pyval) (i : nat) (h : string) :
  List.NoDup headers ->
  headers !! i = Some h ->
  dict_zip headers cells !! h = cells !! i.
Proof.
  intros Hnodup Hh. unfold dict_zip.
  destruct (cells !! i) as [v|] eqn:Hv.
  - apply fold_insert_found; [now apply combine_fst_nodup|].
    clear Hnodup. revert i cells Hh Hv.
    induction headers as [|k headers IH]; intros [|i] [|w cells] Hh Hv; try discriminate.
    + injection Hh as ->. injection Hv as ->. left. reflexivity.
    + right. apply (IH i cells Hh Hv).
  - rewrite fold_insert_other; [apply lookup_empty|].
    revert i cells Hh Hv.
    induction headers as [|k headers IH]; intros [|i] [|w cells] Hh Hv;
      try discriminate; cbn; try tauto.
    apply List.NoDup_cons_iff in Hnodup as [Hk Hnodup].
    intros [->|Hin].
    + apply Hk. apply list_elem_of_In, list_elem_of_lookup. eauto.
    + apply (IH Hnodup i cells Hh Hv Hin).
Qed.

Section Sheet.
Context {tk : Toolkit}.

(** A sheet without header row.  When no row holds the label of the name
    column, [parse_companies] reads every row as lying before the header: it
    emits nothing, logs nothing and returns normally. *)
Theorem sheet_without_header (rows : list (list pyval)) (c : ctx) :
  forallb (fun cells => negb (is_header_row cells)) rows = true ->
  parse_companies rows c = (c, Ok tt).
Proof.
  unfold parse_companies. generalize 0%N.
  induction rows as [|cells rows IH]; intros idx Hrows; [reflexivity|].
  cbn [forallb] in Hrows. apply andb_prop in Hrows as [Hcells Hrows].
  cbn [parse_rows]. unfold is_header_row in Hcells.
  destruct (existsb _ cells); [discriminate|]. now apply IH.
Qed.

(** The header row.  The rows before the first row that holds the label of
    the name column are ignored, that row is not parsed as a company, and the
    rows after it are read with its cells, cut at [" ("], as headers.  The
    name column is always among these headers. *)
Theorem sheet_header_found (before : list (list pyval)) (header : list pyval)
    (rows : list (list pyval)) (c : ctx) :
  forallb (fun cells => negb (is_header_row cells)) before = true ->
  is_header_row header = true ->
  parse_companies (before ++ header :: rows) c
  = parse_rows (Some (map header_of header)) (N.of_nat (length before) + 1) rows c
  /\ In COL_NAME (map header_of header).
Proof.
  intros Hbefore Hheader. split.
  - unfold parse_companies.
    change 0%N with (N.of_nat 0) at 1.
    replace (length before) with (0 + length before) by reflexivity.
    generalize 0. revert Hbefore.
    induction before as [|cells before IH]; intros Hbefore n.
    + cbn [app parse_rows length]. unfold is_header_row in Hheader. rewrite Hheader.
      now rewrite Nat.add_0_r.
    + cbn [forallb] in Hbefore. apply andb_prop in Hbefore as [Hcells Hbefore].
      cbn [app parse_rows length]. unfold is_header_row in Hcells.
      destruct (existsb _ cells); [discriminate|].
      replace (N.of_nat n + 1)%N with (N.of_nat (S n)) by lia.
      rewrite (IH Hbefore (S n)). f_equal. lia.
  - unfold is_header_row in Hheader. apply existsb_exists in Hheader as (cell & Hin & Heq).
    apply in_map_iff. exists cell. split; [|exact Hin].
    destruct cell as [|s|n|b|text truth]; try discriminate.
    cbn [text_is] in Heq. apply String.eqb_eq in Heq. subst s. reflexivity.
Qed.

Lemma dict_zip_missing (headers : list string) (cells : list pyval) k :
  ~ In k headers -> dict_zip headers cells !! k = None.
Proof.
  intros Hnot. unfold dict_zip. rewrite fold_insert_other; [apply lookup_empty|].
  intros Hin. apply Hnot, (combine_fst_in _ _ _ Hin).
Qed.

(** A sheet without one of the identity columns.  When the headers lack the
    tax id, name or address column, the first row after the header raises a
    [KeyError] that nothing catches: the exception ends [parse_companies]
    with nothing emitted, and the rows after it are never read. *)
Theorem missing_identity_column_aborts (headers : list string) (k : string) (idx : N)
    (cells : list pyval) (rest : list (list pyval)) (c : ctx) :
  In k [COL_IDNO; COL_NAME; COL_ADDRESS] ->
  ~ In k headers ->
  exists k', In k' [COL_IDNO; COL_NAME; COL_ADDRESS]
             /\ parse_rows (Some headers) idx (cells :: rest) c = (c, Raise (KeyError k')).
Proof.
  intros Hk Hnot. cbn [parse_rows]. rewrite bind_run, parse_company_run.
  pose proof (dict_zip_missing headers cells k Hnot) as Hnone.
  destruct (dict_zip headers cells !! COL_IDNO) as [idno|] eqn:Hidno;
    [|exists COL_IDNO; cbn; auto].
  destruct (dict_zip headers cells !! COL_NAME) as [name|] eqn:Hname;
    [|exists COL_NAME; cbn; auto].
  destruct (dict_zip headers cells !! COL_ADDRESS) as [address|] eqn:Haddress;
    [|exists COL_ADDRESS; cbn; auto].
  cbn [In] in Hk. destruct Hk as [<-|[<-|[<-|[]]]]; congruence.
Qed.

End Sheet.

(** ** The audit of a company row *)

Lemma leftover_lookup (data : gmap string pyval) k :
  leftover data !! k = if existsb (String.eqb k) POPPED then None else data !! k.
Proof.
  unfold leftover, POPPED. cbn [fold_left existsb].
  repeat (match goal with
          | |- context [String.eqb k ?K] =>
              destruct (String.eqb_spec k K) as [->|?];
              [cbn [orb]; rewrite ?lookup_delete_ne by done; apply lookup_delete_eq|]
          end).
  cbn [orb]. now rewrite !lookup_delete_ne by congruence.
Qed.

Section Audit.
Context {tk : Toolkit}.

(** The audit sees what the parser did not read.  For a row with identity
    that is processed to its end, the last thing added to the log is what
    [audit_data] reports, and the mapping it is given holds none of the nine
    columns [parse_company] pops and every other column of the row with its
    cell. *)
Theorem audit_sees_unread_columns (data : gmap string pyval) (c : ctx) :
  identifiable data ->
  snd (parse_company data c) = Ok tt ->
  exists ls remaining,
    logged (fst (parse_company data c))
    = logged c ++ ls ++ audit_data remaining IGNORE_COLUMNS
    /\ forall k, remaining !! k
                 = if existsb (String.eqb k) POPPED then None else data !! k.
Proof.
  intros (idno & name & address & Hidno & Hname & Haddress & [i Hi]).
  rewrite parse_company_run, Hidno, Hname, Haddress, Hi.
  destruct (data !! COL_INCORPORATION) as [incorporated|]; [|discriminate].
  destruct (data !! COL_DISSOLUTION) as [dissolved|]; [|discriminate].
  destruct (data !! COL_LEGAL_FORM) as [legal_form|]; [|discriminate].
  cbv zeta.
  set (company := company_entity i idno name address incorporated dissolved legal_form).
  assert (Hend : forall directors founders owners,
    exists ls remaining,
      logged (extend (extend (extend c (directors_records company directors) [])
                        (founders_records company founders) (founders_logs founders))
                (owners_records company owners ++ [company])
                (owners_logs company owners ++ audit_data (leftover data) IGNORE_COLUMNS))
      = logged c ++ ls ++ audit_data remaining IGNORE_COLUMNS
      /\ forall k, remaining !! k
                   = if existsb (String.eqb k) POPPED then None else data !! k).
  { intros ds fs os.
    exists (founders_logs fs ++ owners_logs company os), (leftover data).
    split; [|apply leftover_lookup].
    cbn [extend logged app]. now rewrite <- !app_assoc. }
  destruct (data !! COL_DIRECTORS) as [directors|]; [|discriminate].
  destruct (null_or_text directors); [|discriminate]. cbn [negb].
  destruct (data !! COL_FOUNDERS) as [founders|]; [|discriminate].
  destruct (null_text_or_int founders); [|discriminate]. cbn [negb].
  destruct (null_or_text (default VNone (data !! COL_OWNERS))); [|discriminate].
  intros _. apply Hend.
Qed.

End Audit.

(** ** The pieces of a split *)

(** What [split] cuts.  The pieces of a text split at a separator, joined
    again with the separator, are the text: no character of a directors,
    founders or owners field is lost.  And no piece contains the separator,
    so that a name with ["],"] (or ["),"]) in it is always cut in two. *)
Theorem split_pieces (b : ascii) (sep s : string) :
  Py.join (String b sep) (Py.split (String b sep) s) = s
  /\ Forall (fun piece => Py.contains (String b sep) piece = false)
       (Py.split (String b sep) s).
Proof.
  split; [apply join_split|].
  unfold Py.split.
  assert (Hgen : forall n s, String.length s <= n ->
    let '(p, ps) := Py.split_scan (String b sep) 0 s in
    (exists rest, s = p +:+ rest)
    /\ Py.contains (String b sep) p = false
    /\ Forall (fun piece => Py.contains (String b sep) piece = false) ps).
  { clear s. induction n as [|n IH]; intros [|a s] Hle; cbn [String.length] in Hle;
      try lia; try (cbn; repeat split; [exists EmptyString; reflexivity | constructor]).
    cbn [Py.split_scan].
    destruct (Py.startswith (String b sep) (String a s)) eqn:Hstart.
    - rewrite split_scan_skip.
      pose proof (IH (Py.drop (String.length (String b sep) - 1) s)) as IHd.
      destruct (Py.split_scan (String b sep) 0 _) as [p ps].
      destruct IHd as (_ & Hp & Hps).
      { pose proof (length_drop (String.length (String b sep) - 1) s). lia. }
      repeat split; [exists (String a s); reflexivity | now constructor].
    - pose proof (IH s) as IHs.
      destruct (Py.split_scan (String b sep) 0 s) as [p ps].
      destruct IHs as ([rest Hrest] & Hp & Hps); [lia|].
      repeat split; [exists rest; now rewrite Hrest at 1 | | exact Hps].
      cbn [Py.contains]. rewrite Hp, orb_false_r.
      destruct (Py.startswith (String b sep) (String a p)) eqn:Hp'; [|reflexivity].
      apply (startswith_app _ _ rest) in Hp'.
      change (String a p +:+ rest) with (String a (p +:+ rest)) in Hp'.
      rewrite <- Hrest in Hp'. congruence. }
  specialize (Hgen (String.length s) s (le_n _)).
  destruct (Py.split_scan (String b sep) 0 s) as [p ps].
  destruct Hgen as (_ & Hp & Hps). now constructor.
Qed.

(** ** The catalogue pages, further *)

Section Pages.
Context {web : Web}.

(** [read_ckan] touches the fetch trace only.  It emits nothing and logs
    nothing; it fetches at most two resources, the first of them the
    catalogue page; without a dataset URL it fetches nothing and raises a
    [RuntimeError]; and an exception of the first fetch is passed on as it
    is, after that one fetch. *)
Theorem read_ckan_effects (dataset_url : option string) (c : ctx) :
  emitted (fst (read_ckan dataset_url c)) = emitted c
  /\ logged (fst (read_ckan dataset_url c)) = logged c
  /\ exists fs,
       fetched (fst (read_ckan dataset_url c)) = fetched c ++ fs
       /\ length fs <= 2
       /\ match dataset_url with
          | None => fs = [] /\ snd (read_ckan dataset_url c)
                               = Raise (RuntimeError "No dataset url")
          | Some url =>
              match fetch_document "dataset.html" url with
              | Raise e => fs = [("dataset.html", url)]
                           /\ snd (read_ckan dataset_url c) = Raise e
              | Ok _ => exists fs', fs = ("dataset.html", url) :: fs'
              end
          end.
Proof.
  destruct dataset_url as [url|].
  2:{ split; [reflexivity|]. split; [reflexivity|].
      exists []. cbn. rewrite app_nil_r. repeat split. lia. }
  unfold read_ckan, bind, fetch.
  destruct (fetch_document "dataset.html" url) as [page|e].
  2:{ split; [reflexivity|]. split; [reflexivity|].
      exists [("dataset.html", url)]. cbn. repeat split. lia. }
  destruct (fold_left _ (findall RESOURCE_ANCHORS page) None) as [resource_url|].
  2:{ split; [reflexivity|]. split; [reflexivity|].
      exists [("dataset.html", url)]. cbn. repeat split; [lia | eauto]. }
  cbn [emitted logged fetched].
  destruct (fetch_document "resource.html" resource_url) as [resource|e].
  2:{ split; [reflexivity|]. split; [reflexivity|].
      exists [("dataset.html", url); ("resource.html", resource_url)].
      cbn. rewrite <- app_assoc. repeat split; [lia | eauto]. }
  destruct (findall ACTION_ANCHORS resource);
    (split; [reflexivity|]; split; [reflexivity|];
     exists [("dataset.html", url); ("resource.html", resource_url)];
     cbn; rewrite <- app_assoc; repeat split; [lia | eauto]).
Qed.

(** A page without a dated candidate.  When every link is stale or shows no
    date (an empty page among them), the selector has nothing to take the
    maximum of: it logs a warning for each link without a date that is not
    stale and stops with a [ValueError], before the assertion on the age is
    reached. *)
Theorem no_dated_link_raises (now : Date.datetime) (doc : document)
    (hrefs : list string) (c : ctx) :
  map (fun link => get_attr link "href") (xpath XLSX_LINKS doc) = map Some hrefs ->
  forallb (fun href => negb (matched (link_date href))) hrefs = true ->
  get_most_recent_link now doc c
  = (extend c [] (undated_warnings hrefs), Raise ValueError)
  /\ length (undated_warnings hrefs)
     = length (List.filter (fun href => negb (stale href)) hrefs).
Proof.
  intros Hmap Hnone.
  assert (Hwell : well_dated hrefs = true).
  { unfold well_dated. clear Hmap. induction hrefs as [|href hrefs IH]; [reflexivity|].
    cbn [forallb] in *. apply andb_prop in Hnone as [Hhref Hnone].
    rewrite (IH Hnone), andb_true_r. destruct (link_date href); [discriminate | reflexivity]. }
  assert (Hcands : dated_candidates hrefs = []).
  { unfold dated_candidates. clear Hmap Hwell.
    induction hrefs as [|href hrefs IH]; [reflexivity|].
    cbn [forallb flat_map] in *. apply andb_prop in Hnone as [Hhref Hnone].
    rewrite (IH Hnone). destruct (link_date href); [discriminate | reflexivity]. }
  split.
  - unfold get_most_recent_link. rewrite bind_run, (date_links_run _ _ Hmap Hwell), Hcands.
    reflexivity.
  - clear Hmap Hwell Hcands. unfold undated_warnings.
    induction hrefs as [|href hrefs IH]; [reflexivity|].
    cbn [forallb flat_map List.filter] in *. apply andb_prop in Hnone as [Hhref Hnone].
    rewrite length_app, (IH Hnone). unfold link_date in Hhref.
    destruct (stale href); [reflexivity|].
    destruct (re_search date_here href); [discriminate | reflexivity].
Qed.

(** What the loop over the links keeps: every dated link comes from a link
    of the page and satisfies what each such link satisfies. *)
Lemma date_links_invariant (P : Date.datetime * string -> Prop) (links : list element) :
  forall acc c c' dated,
    (forall link href text d,
       In link links -> get_attr link "href" = Some href -> stale href = false ->
       re_search date_here href = Some text -> Date.strptime text = Some d ->
       P (d, href)) ->
    for_fold links acc date_link c = (c', Ok dated) ->
    Forall P acc -> Forall P dated.
Proof.
  induction links as [|link links IH]; intros acc c c' dated HP.
  - cbn. intros [= _ <-]. auto.
  - cbn [for_fold]. rewrite bind_run. unfold date_link at 1.
    assert (HP' : forall link0 href text d,
              In link0 links -> get_attr link0 "href" = Some href -> stale href = false ->
              re_search date_here href = Some text -> Date.strptime text = Some d ->
              P (d, href)).
    { intros link0 href text d Hin. apply HP. now right. }
    destruct (get_attr link "href") as [href|] eqn:Hhref; [|discriminate].
    fold (stale href). destruct (stale href) eqn:Hstale.
    + cbn [ret]. apply (IH _ _ _ _ HP').
    + destruct (re_search date_here href) as [text|] eqn:Htext.
      * destruct (Date.strptime text) as [d|] eqn:Hd; [|discriminate].
        cbn [ret]. intros Hrun Hacc. apply (IH _ _ _ _ HP' Hrun).
        apply Forall_app. split; [exact Hacc|].
        constructor; [|constructor]. apply (HP link href text d); auto. now left.
      * rewrite bind_run, log_extend. cbn [ret]. apply (IH _ _ _ _ HP').
Qed.

(** The link returned is a recent link of the page.  Whenever the selector
    returns, and whatever else the page holds, the href is that of one of
    the links selected on the page, it shows a calendar date, and that date
    is fewer than 30 days before the day of [now]. *)
Theorem returned_link_is_recent (now : Date.datetime) (doc : document)
    (c c' : ctx) (href : string) :
  (0 <= Date.dt_usec now)%Z ->
  get_most_recent_link now doc c = (c', Ok href) ->
  exists link text d,
    In link (xpath XLSX_LINKS doc)
    /\ get_attr link "href" = Some href
    /\ re_search date_here href = Some text
    /\ Date.strptime text = Some d
    /\ (days_old now d < 30)%Z.
Proof.
  intros Husec. unfold get_most_recent_link. rewrite bind_run.
  destruct (for_fold _ [] date_link c) as [c1 [dated|e]] eqn:Hloop; [|discriminate].
  destruct dated as [|first others]; [discriminate|].
  unfold Date.sub_days. destruct (Z.ltb_spec (Date.dt_ordinal now - 30) 1); [discriminate|].
  destruct (Date.lt _ _) eqn:Hlt; [|discriminate].
  intros [= _ <-].
  pose proof (date_links_invariant
                (fun p => exists link text,
                   In link (xpath XLSX_LINKS doc)
                   /\ get_attr link "href" = Some (snd p)
                   /\ re_search date_here (snd p) = Some text
                   /\ Date.strptime text = Some (fst p))
                _ _ _ _ _
                (fun link href text d Hin Hhref _ Htext Hd =>
                   ex_intro _ link (ex_intro _ text
                     (conj Hin (conj Hhref (conj Htext Hd)))))
                Hloop (List.Forall_nil _)) as Hall.
  rewrite List.Forall_forall in Hall.
  destruct (Hall _ (max_by_date_in first others)) as (link & text & Hin & Hhref & Htext & Hd).
  exists link, text, (fst (max_by_date first others)). repeat split; try assumption.
  apply date_lt_spec in Hlt. cbn [Date.dt_ordinal Date.dt_usec] in Hlt.
  pose proof (strptime_midnight _ _ Hd) as Hmid. unfold days_old. lia.
Qed.

(** The selector only warns.  Whatever the page and whatever the outcome,
    [get_most_recent_link] emits nothing, fetches nothing, keeps the log it
    found and adds nothing to it but warnings. *)
Theorem selector_only_warns (now : Date.datetime) (doc : document) (c : ctx) :
  exists ls,
    fst (get_most_recent_link now doc c) = extend c [] ls
    /\ Forall (fun r => log_level r = Warning) ls.
Proof.
  assert (Hloop : forall links acc c0,
    exists ls, fst (for_fold links acc date_link c0) = extend c0 [] ls
               /\ Forall (fun r => log_level r = Warning) ls).
  { induction links as [|link links IH]; intros acc c0.
    - exists []. cbn. split; [now rewrite extend_nil | constructor].
    - cbn [for_fold]. rewrite bind_run. unfold date_link at 1.
      assert (Hstop : forall e : exn,
        exists ls, fst (c0, @Raise (list (Date.datetime * string)) e) = extend c0 [] ls
                   /\ Forall (fun r => log_level r = Warning) ls).
      { intros e. exists []. cbn. split; [now rewrite extend_nil | constructor]. }
      destruct (get_attr link "href") as [href|]; [|apply Hstop].
      destruct (_ || _).
      + cbn [ret]. apply IH.
      + destruct (re_search date_here href) as [text|].
        * destruct (Date.strptime text); [cbn [ret]; apply IH | apply Hstop].
        * rewrite bind_run, log_extend. cbn [ret].
          destruct (IH acc (extend c0 [] [Log Warning ("Link " +:+ href
                                            +:+ " does not contain a date") []]))
            as (ls & Hls & Hwarn).
          rewrite Hls, extend_extend. eexists. split; [reflexivity|].
          constructor; [reflexivity | exact Hwarn]. }
  unfold get_most_recent_link. rewrite bind_run.
  destruct (Hloop (xpath XLSX_LINKS doc) [] c) as (ls & Hls & Hwarn).
  destruct (for_fold _ [] date_link c) as [c1 [dated|e]]; cbn [fst] in Hls; subst c1.
  - exists ls. split; [|exact Hwarn].
    destruct dated; [reflexivity|]. destruct (Date.sub_days now 30); [|reflexivity].
    destruct (Date.lt _ _); reflexivity.
  - exists ls. auto.
Qed.

End Pages.

(** ** Dates as written and dates in time *)

Lemma days_before_year_step y :
  Date.days_before_year (y + 1)
  = (Date.days_before_year y + 365 + (if Date.is_leap y then 1 else 0))%Z.
Proof.
  unfold Date.days_before_year, Date.is_leap.
  replace (y + 1 - 1)%Z with y by lia.
  destruct (Z.eqb_spec (y mod 4) 0), (Z.eqb_spec (y mod 100) 0),
    (Z.eqb_spec (y mod 400) 0); cbn [negb andb orb];
    Z.div_mod_to_equations; lia.
Qed.

Lemma days_before_year_mono y1 y2 :
  (y1 < y2)%Z -> (Date.days_before_year (y1 + 1) <= Date.days_before_year y2)%Z.
Proof.
  intros Hlt. replace y2 with (y1 + 1 + (y2 - y1 - 1))%Z by lia.
  assert (Hk : (0 <= y2 - y1 - 1)%Z) by lia. revert Hk.
  generalize (y2 - y1 - 1)%Z. apply natlike_ind.
  - rewrite Z.add_0_r. lia.
  - intros k Hk IH. replace (y1 + 1 + Z.succ k)%Z with (y1 + 1 + k + 1)%Z by lia.
    rewrite (days_before_year_step (y1 + 1 + k)).
    destruct (Date.is_leap (y1 + 1 + k)); lia.
Qed.

Lemma month_cases m :
  (1 <= m <= 12)%Z ->
  m = 1%Z \/ m = 2%Z \/ m = 3%Z \/ m = 4%Z \/ m = 5%Z \/ m = 6%Z \/ m = 7%Z
  \/ m = 8%Z \/ m = 9%Z \/ m = 10%Z \/ m = 11%Z \/ m = 12%Z.
Proof. lia. Qed.

(** A day of a year lies within the year. *)
Lemma day_within_year y m d :
  (1 <= m <= 12)%Z -> (1 <= d <= Date.days_in_month y m)%Z ->
  (Date.days_before_year y < Date.ymd2ord y m d <= Date.days_before_year (y + 1))%Z.
Proof.
  intros Hm Hd. rewrite days_before_year_step. unfold Date.ymd2ord.
  generalize (Date.days_before_year y). intros base.
  unfold Date.days_before_month, Date.days_in_month in *.
  destruct (month_cases m Hm) as [->|[->|[->|[->|[->|[->|[->|[->|[->|[->|[->| ->]]]]]]]]]]];
    destruct (Date.is_leap y); repeat (match goal with
            | |- context [Z.to_nat ?e] =>
                let v := eval vm_compute in (Z.to_nat e) in
                change (Z.to_nat e) with v
            end); cbn in *; lia.
Qed.

(** Within a year, an earlier month ends before a later month begins. *)
Lemma months_in_order y m1 d1 m2 d2 :
  (1 <= m1)%Z -> (m1 < m2)%Z -> (m2 <= 12)%Z ->
  (d1 <= Date.days_in_month y m1)%Z -> (1 <= d2)%Z ->
  (Date.days_before_month y m1 + d1 < Date.days_before_month y m2 + d2)%Z.
Proof.
  intros H1 Hlt H2 Hd1 Hd2.
  assert (Hm1 : (1 <= m1 <= 12)%Z) by lia. assert (Hm2 : (1 <= m2 <= 12)%Z) by lia.
  unfold Date.days_before_month, Date.days_in_month in *.
  destruct (month_cases m1 Hm1) as [->|[->|[->|[->|[->|[->|[->|[->|[->|[->|[->| ->]]]]]]]]]]];
    destruct (month_cases m2 Hm2)
      as [->|[->|[->|[->|[->|[->|[->|[->|[->|[->|[->| ->]]]]]]]]]]];
    try lia; destruct (Date.is_leap y); repeat (match goal with
            | |- context [Z.to_nat ?e] =>
                let v := eval vm_compute in (Z.to_nat e) in
                change (Z.to_nat e) with v
            end); cbn in *; lia.
Qed.

Lemma ymd2ord_lt y1 m1 d1 y2 m2 d2 :
  (1 <= m1 <= 12)%Z -> (1 <= d1 <= Date.days_in_month y1 m1)%Z ->
  (1 <= m2 <= 12)%Z -> (1 <= d2 <= Date.days_in_month y2 m2)%Z ->
  ymd_before (y1, m1, d1) (y2, m2, d2) ->
  (Date.ymd2ord y1 m1 d1 < Date.ymd2ord y2 m2 d2)%Z.
Proof.
  intros Hm1 Hd1 Hm2 Hd2 [Hy | [-> [Hm | [-> Hd]]]].
  - pose proof (day_within_year y1 m1 d1 Hm1 Hd1).
    pose proof (day_within_year y2 m2 d2 Hm2 Hd2).
    pose proof (days_before_year_mono y1 y2 Hy). lia.
  - unfold Date.ymd2ord.
    pose proof (months_in_order y2 m1 d1 m2 d2). lia.
  - unfold Date.ymd2ord. lia.
Qed.

Lemma ymd2ord_order y1 m1 d1 y2 m2 d2 :
  (1 <= m1 <= 12)%Z -> (1 <= d1 <= Date.days_in_month y1 m1)%Z ->
  (1 <= m2 <= 12)%Z -> (1 <= d2 <= Date.days_in_month y2 m2)%Z ->
  (Date.ymd2ord y1 m1 d1 < Date.ymd2ord y2 m2 d2)%Z
  <-> ymd_before (y1, m1, d1) (y2, m2, d2).
Proof.
  intros Hm1 Hd1 Hm2 Hd2. split; [|now apply ymd2ord_lt].
  intros Hlt.
  destruct (Z.lt_trichotomy y1 y2) as [Hy | [Hy | Hy]]; [left; exact Hy | | ].
  - subst y2. right. split; [reflexivity|].
    destruct (Z.lt_trichotomy m1 m2) as [Hm | [Hm | Hm]]; [left; exact Hm | | ].
    + subst m2. right. split; [reflexivity|]. unfold Date.ymd2ord in Hlt. lia.
    + assert (Date.ymd2ord y1 m2 d2 < Date.ymd2ord y1 m1 d1)%Z; [|lia].
      apply ymd2ord_lt; try lia. right. split; [reflexivity|]. left. exact Hm.
  - assert (Date.ymd2ord y2 m2 d2 < Date.ymd2ord y1 m1 d1)%Z; [|lia].
    apply ymd2ord_lt; try lia. left. exact Hy.
Qed.

(** The dates of the links compare as they are written.  For two texts that
    [strptime] accepts, the one [datetime] is before the other exactly when
    its year, month and day, read as numbers, come first in that order: the
    maximum the selector takes is the latest calendar date. *)
Theorem dates_ordered_as_written (text1 text2 : string) (t1 t2 : Date.datetime) :
  Date.strptime text1 = Some t1 ->
  Date.strptime text2 = Some t2 ->
  (Date.lt t1 t2 = true <-> ymd_before (ymd_of text1) (ymd_of text2)).
Proof.
  unfold Date.strptime, ymd_of. intros H1 H2.
  match type of H1 with
  | (if ?b then _ else _) = _ => destruct b eqn:Hv1; [|discriminate]
  end.
  match type of H2 with
  | (if ?b then _ else _) = _ => destruct b eqn:Hv2; [|discriminate]
  end.
  injection H1 as <-. injection H2 as <-.
  repeat rewrite andb_true_iff in Hv1, Hv2. rewrite !Z.leb_le in Hv1, Hv2.
  destruct Hv1 as ((((Hy1 & Hm1a) & Hm1b) & Hd1a) & Hd1b).
  destruct Hv2 as ((((Hy2 & Hm2a) & Hm2b) & Hd2a) & Hd2b).
  rewrite date_lt_spec. cbn [Date.dt_ordinal Date.dt_usec].
  split.
  - intros [Hlt | [_ Habs]]; [|lia]. apply ymd2ord_order; [lia..|exact Hlt].
  - intros Hbefore. left. apply ymd2ord_order in Hbefore; [exact Hbefore|lia..].
Qed.

(** ** The rows of the non-profit organizations *)

Section NonprofitRows.
Context {tk : Toolkit} {hp : Helpers}.

(** The whole of [crawl_row], column by column. *)
Lemma crawl_row_run row c :
  crawl_row row c
  = match row !! "tax_number" with
    | None => (c, Raise (KeyError "tax_number"))
    | Some tax_number =>
    match row !! "name" with
    | None => (c, Raise (KeyError "name"))
    | Some name =>
    match row !! "director" with
    | None => (c, Raise (KeyError "director"))
    | Some director =>
    match row !! "legal_form" with
    | None => (c, Raise (KeyError "legal_form"))
    | Some legal_form =>
    match row !! "address" with
    | None => (c, Raise (KeyError "address"))
    | Some full =>
    match row !! "admin_unit_code" with
    | None => (c, Raise (KeyError "admin_unit_code"))
    | Some place =>
    match row !! "incorporation_date" with
    | None => (c, Raise (KeyError "incorporation_date"))
    | Some incorporated =>
    match row !! "dissolution_date" with
    | None => (c, Raise (KeyError "dissolution_date"))
    | Some dissolved =>
        let organization :=
          organization_entity tax_number name legal_form full place incorporated dissolved in
        (extend c (nonprofit_director organization director ++ [organization])
           (audit_data (fold_left (fun m k => delete k m) NONPROFIT_COLUMNS row) []),
         Ok tt)
    end end end end end end end end.
Proof.
  unfold crawl_row.
  rewrite pop_run. destruct (row !! "tax_number") as [tax_number|]; [|reflexivity].
  cbn beta iota. rewrite pop_run, !lookup_delete_ne by done.
  destruct (row !! "name") as [name|]; [|reflexivity].
  cbn beta iota. rewrite pop_run, !lookup_delete_ne by done.
  destruct (row !! "director") as [director|]; [|reflexivity].
  cbn beta iota zeta. rewrite pop_run, !lookup_delete_ne by done.
  destruct (row !! "legal_form") as [legal_form|]; [|reflexivity].
  cbn beta iota. rewrite pop_run, !lookup_delete_ne by done.
  destruct (row !! "address") as [full|]; [|reflexivity].
  cbn beta iota. rewrite pop_run, !lookup_delete_ne by done.
  destruct (row !! "admin_unit_code") as [place|]; [|reflexivity].
  cbn beta iota. rewrite pop_run, !lookup_delete_ne by done.
  destruct (row !! "incorporation_date") as [incorporated|]; [|reflexivity].
  cbn beta iota. rewrite pop_run, !lookup_delete_ne by done.
  destruct (row !! "dissolution_date") as [dissolved|]; [|reflexivity].
  cbn beta iota. unfold make, set_id. cbn [ent_schema ent_id ent_props].
  fold (organization_entity tax_number name legal_form full place incorporated dissolved).
  set (organization :=
         organization_entity tax_number name legal_form full place incorporated dissolved).
  unfold nonprofit_director. rewrite bind_run.
  destruct (truthy director).
  - rewrite bind_run, emit_extend, emit_extend, bind_run, emit_extend, audit_extend.
    rewrite !extend_extend. reflexivity.
  - cbn [ret]. rewrite bind_run, emit_extend, audit_extend, extend_extend. reflexivity.
Qed.

Lemma organization_schema tax_number name legal_form full place incorporated dissolved :
  ent_schema (organization_entity tax_number name legal_form full place incorporated
                dissolved) = "Organization".
Proof.
  unfold organization_entity, apply_date, copy_address. cbn [ent_schema].
  now rewrite !add_schema.
Qed.

Lemma organization_id tax_number name legal_form full place incorporated dissolved :
  ent_id (organization_entity tax_number name legal_form full place incorporated
            dissolved) = make_id [tax_number; name].
Proof.
  unfold organization_entity, apply_date, copy_address. cbn [ent_id].
  now rewrite !add_id.
Qed.


(** A full row whose ids can be made.  Take a row with its eight columns
    for which [make_id] of tax number and name gives an id and, when the
    director cell is true (neither null, empty, zero nor false), [make_id]
    gives an id of the cell and an id of the Directorship.  The row is
    processed to its end, every record emitted for it has an id, and the
    Organization, with the id of tax number and name, is the last of them.
    A director cell that is not true adds nothing before it; one that is
    adds a Person, whose id is [make_id] of the cell, and then a
    Directorship that refers to the Person and to the Organization and has
    no role. *)
Theorem nonprofit_row_emitted (row : gmap string pyval) (c : ctx)
    (tax_number name director legal_form full place incorporated dissolved : pyval)
    (oid : string) :
  row !! "tax_number" = Some tax_number -> row !! "name" = Some name ->
  row !! "director" = Some director -> row !! "legal_form" = Some legal_form ->
  row !! "address" = Some full -> row !! "admin_unit_code" = Some place ->
  row !! "incorporation_date" = Some incorporated ->
  row !! "dissolution_date" = Some dissolved ->
  make_id [tax_number; name] = Some oid ->
  (truthy director = true ->
   exists pid, make_id [director] = Some pid
               /\ is_Some (make_id [VStr oid; VStr pid])) ->
  exists organization people,
    snd (crawl_row row c) = Ok tt
    /\ new_emitted (crawl_row row) c = people ++ [organization]
    /\ Forall (fun e => is_Some (ent_id e)) (people ++ [organization])
    /\ ent_schema organization = "Organization"
    /\ ent_id organization = Some oid
    /\ if truthy director
       then exists person directorship,
              people = [person; directorship]
              /\ ent_schema person = "Person"
              /\ ent_id person = make_id [director]
              /\ prop_values person "name" = kept "Person" "name" director
              /\ ent_schema directorship = "Directorship"
              /\ prop_values directorship "organization"
                 = kept "Directorship" "organization" (VStr oid)
              /\ prop_values directorship "director"
                 = kept "Directorship" "director" (of_opt (ent_id person))
              /\ prop_values directorship "role" = []
       else people = [].
Proof.
  intros H1 H2 H3 H4 H5 H6 H7 H8 Hoid Hids.
  pose proof (crawl_row_run row c) as Hrun.
  rewrite H1, H2, H3, H4, H5, H6, H7, H8 in Hrun. cbv zeta in Hrun.
  set (organization :=
         organization_entity tax_number name legal_form full place incorporated dissolved)
    in *.
  assert (Hid : ent_id organization = Some oid).
  { unfold organization. now rewrite organization_id. }
  exists organization, (nonprofit_director organization director).
  rewrite (new_emitted_extend _ _ _ _ _ Hrun), Hrun.
  split; [reflexivity|]. split; [reflexivity|].
  unfold nonprofit_director. rewrite Hid. cbn [of_opt].
  destruct (truthy director).
  - destruct (Hids eq_refl) as (pid & Hpid & Hdid).
    split.
    { repeat constructor; rewrite ?add_id; cbn [ent_id];
        rewrite ?Hpid; cbn [of_opt]; eauto. }
    split; [apply organization_schema|]. split; [reflexivity|].
    eexists _, _. split; [reflexivity|].
    rewrite !add_schema, !add_id, !prop_values_add, !add_schema. cbn.
    repeat split; now rewrite ?app_nil_r.
  - split; [repeat constructor; eauto|].
    split; [apply organization_schema|]. split; reflexivity.
Qed.

End NonprofitRows.

(** ** The further properties on sample inputs *)

(** The sample row without its founders column. *)
Lemma failed_row_without_company_witness :
  forallb is_sub_record
    (new_emitted (parse_company (tk := Sample.toolkit)
                    (delete COL_FOUNDERS Sample.sample_row)) ctx0) = true
  /\ company_ids
       (new_emitted (parse_company (tk := Sample.toolkit)
                       (delete COL_FOUNDERS Sample.sample_row)) ctx0) = [].
Proof.
  apply (failed_row_without_company (tk := Sample.toolkit) _ ctx0 (KeyError COL_FOUNDERS)).
  vm_compute. reflexivity.
Defined.

Lemma directors_before_missing_founders_witness :
  parse_company (tk := Sample.toolkit) (delete COL_FOUNDERS Sample.sample_row) ctx0
  = (extend ctx0
       (flat_map
          (director_emits (tk := Sample.toolkit)
             (company_entity (tk := Sample.toolkit) "oc-companies-md-1003600000000"
                (VStr "1003600000000") (VStr "Alfa SRL") (VStr "Chisinau")
                (VStr "2001-02-03") VNone (VStr "SRL")))
          (Py.split "]," "Ana Popescu [Director]"))
       [],
     Raise (KeyError COL_FOUNDERS)).
Proof.
  apply (directors_before_missing_founders (tk := Sample.toolkit)); reflexivity.
Defined.

Lemma numeric_founders_keep_company_witness :
  snd (parse_company (tk := Sample.toolkit)
         (Sample.row (VStr "1003600000000") (VStr "Alfa SRL") (VStr "Chisinau")
            (VStr "Ana Popescu [Director]") (VInt 42)) ctx0) = Ok tt.
Proof.
  pose proof (numeric_founders_keep_company (tk := Sample.toolkit)
                (Sample.row (VStr "1003600000000") (VStr "Alfa SRL") (VStr "Chisinau")
                   (VStr "Ana Popescu [Director]") (VInt 42)) ctx0
                (VStr "1003600000000") (VStr "Alfa SRL") (VStr "Chisinau")
                (VStr "2001-02-03") VNone (VStr "SRL") (VStr "Ana Popescu [Director]")
                42 "oc-companies-md-1003600000000") as H.
  cbv zeta in H. rewrite H; reflexivity.
Defined.

Lemma numeric_directors_abort_row_witness :
  parse_company (tk := Sample.toolkit)
    (Sample.row (VStr "1003600000000") (VStr "Alfa SRL") (VStr "Chisinau") (VInt 7) VNone)
    ctx0
  = (ctx0, Raise AttributeError).
Proof.
  apply (numeric_directors_abort_row (tk := Sample.toolkit) _ ctx0
           (VStr "1003600000000") (VStr "Alfa SRL") (VStr "Chisinau")
           (VStr "2001-02-03") VNone (VStr "SRL") 7);
    try reflexivity.
  eexists. reflexivity.
Defined.

Lemma dict_zip_lookup_witness :
  dict_zip [COL_IDNO; COL_NAME; COL_ADDRESS] [VInt 5; VStr "Alfa SRL"] !! COL_NAME
  = [VInt 5; VStr "Alfa SRL"] !! 1.
Proof.
  apply dict_zip_lookup; [|reflexivity].
  repeat constructor; cbn; intuition discriminate.
Defined.

Lemma sheet_without_header_witness :
  parse_companies (tk := Sample.toolkit)
    [[VStr "Registrul de stat"]; [VNone; VInt 3]; []] ctx0
  = (ctx0, Ok tt).
Proof.
  apply (sheet_without_header (tk := Sample.toolkit)). reflexivity.
Defined.

Lemma sheet_header_found_witness :
  parse_companies (tk := Sample.toolkit)
    ([[VStr "Registrul de stat"]; [VNone]]
     ++ [VStr "IDNO/ Cod fiscal"; VStr COL_NAME; VStr "Adresa (sediul)"]
     :: [[VStr "1003600000000"; VStr "Alfa SRL"; VStr "Chisinau"]]) ctx0
  = parse_rows (tk := Sample.toolkit)
      (Some (map header_of [VStr "IDNO/ Cod fiscal"; VStr COL_NAME; VStr "Adresa (sediul)"]))
      (N.of_nat (length [[VStr "Registrul de stat"]; [VNone]]) + 1)
      [[VStr "1003600000000"; VStr "Alfa SRL"; VStr "Chisinau"]] ctx0
  /\ In COL_NAME
       (map header_of [VStr "IDNO/ Cod fiscal"; VStr COL_NAME; VStr "Adresa (sediul)"]).
Proof.
  apply (sheet_header_found (tk := Sample.toolkit)); reflexivity.
Defined.

Lemma missing_identity_column_aborts_witness :
  exists k', In k' [COL_IDNO; COL_NAME; COL_ADDRESS]
             /\ parse_rows (tk := Sample.toolkit) (Some [COL_NAME; COL_ADDRESS]) 3
                  ([VStr "Alfa SRL"; VStr "Chisinau"] :: [[VStr "Beta SRL"; VNone]]) ctx0
                = (ctx0, Raise (KeyError k')).
Proof.
  apply (missing_identity_column_aborts (tk := Sample.toolkit) _ COL_IDNO).
  - cbn. auto.
  - cbn. intuition discriminate.
Defined.

Lemma audit_sees_unread_columns_witness :
  exists ls remaining,
    logged (fst (parse_company (tk := Sample.toolkit)
                   (<["Genuri de activitate licentiate" := VStr "comert"]>
                      Sample.sample_row) ctx0))
    = logged ctx0 ++ ls ++ audit_data (Toolkit := Sample.toolkit) remaining IGNORE_COLUMNS
    /\ forall k, remaining !! k
                 = if existsb (String.eqb k) POPPED then None
                   else <["Genuri de activitate licentiate" := VStr "comert"]>
                          Sample.sample_row !! k.
Proof.
  apply (audit_sees_unread_columns (tk := Sample.toolkit)).
  - exists (VStr "1003600000000"), (VStr "Alfa SRL"), (VStr "Chisinau").
    repeat split; try reflexivity. eexists. reflexivity.
  - vm_compute. reflexivity.
Defined.

Lemma no_dated_link_raises_witness :
  get_most_recent_link (web := Sample.web) (Date.at_time 2025 2 1 12 0 0)
    (Sample.listing ["/files/17.06.2024/2025.01.30.xlsx"; "/files/list.xlsx"]) ctx0
  = (extend ctx0 []
       (undated_warnings ["/files/17.06.2024/2025.01.30.xlsx"; "/files/list.xlsx"]),
     Raise ValueError)
  /\ length (undated_warnings ["/files/17.06.2024/2025.01.30.xlsx"; "/files/list.xlsx"])
     = length (List.filter (fun href => negb (stale href))
                 ["/files/17.06.2024/2025.01.30.xlsx"; "/files/list.xlsx"]).
Proof.
  apply (no_dated_link_raises (web := Sample.web)); reflexivity.
Defined.

Lemma returned_link_is_recent_witness :
  exists (link : @element Sample.web) text d,
    In link (xpath (Web := Sample.web) XLSX_LINKS
               (Sample.listing ["/files/2025.01.20/list.xlsx"; "/files/2024.07.02/list.xlsx"]))
    /\ get_attr (Web := Sample.web) link "href" = Some "/files/2025.01.20/list.xlsx"
    /\ re_search date_here "/files/2025.01.20/list.xlsx" = Some text
    /\ Date.strptime text = Some d
    /\ (days_old (Date.at_time 2025 2 1 12 0 0) d < 30)%Z.
Proof.
  apply (returned_link_is_recent (web := Sample.web) _ _ ctx0 ctx0).
  - vm_compute. discriminate.
  - vm_compute. reflexivity.
Defined.

Lemma dates_ordered_as_written_witness :
  Date.lt (Date.Datetime 739266 0) (Date.Datetime 739271 0) = true
  <-> ymd_before (ymd_of "2025.01.15") (ymd_of "2025.01.20").
Proof.
  apply dates_ordered_as_written; reflexivity.
Defined.


Lemma nonprofit_row_emitted_witness :
  exists organization people,
    snd (crawl_row (tk := Sample.toolkit) (hp := SampleHelpers.helpers)
           (SampleHelpers.row (VStr "1010620000000") (VStr "Asociatia Alfa")
              (VStr "Ion Rusu")) ctx0) = Ok tt
    /\ new_emitted (crawl_row (tk := Sample.toolkit) (hp := SampleHelpers.helpers)
                      (SampleHelpers.row (VStr "1010620000000") (VStr "Asociatia Alfa")
                         (VStr "Ion Rusu"))) ctx0
       = people ++ [organization]
    /\ Forall (fun e => is_Some (ent_id e)) (people ++ [organization])
    /\ ent_schema organization = "Organization"
    /\ ent_id organization = Some "1010620000000-Asociatia Alfa"
    /\ exists person directorship,
         people = [person; directorship]
         /\ ent_schema person = "Person"
         /\ ent_id person = make_id (Toolkit := Sample.toolkit) [VStr "Ion Rusu"]
         /\ prop_values person "name"
            = kept (tk := Sample.toolkit) "Person" "name" (VStr "Ion Rusu")
         /\ ent_schema directorship = "Directorship"
         /\ prop_values directorship "organization"
            = kept (tk := Sample.toolkit) "Directorship" "organization"
                (VStr "1010620000000-Asociatia Alfa")
         /\ prop_values directorship "director"
            = kept (tk := Sample.toolkit) "Directorship" "director"
                (of_opt (ent_id person))
         /\ prop_values directorship "role" = [].
Proof.
  apply (nonprofit_row_emitted (tk := Sample.toolkit) (hp := SampleHelpers.helpers)
           _ ctx0 (VStr "1010620000000") (VStr "Asociatia Alfa") (VStr "Ion Rusu")
           (VStr "Asociatie") (VStr "Chisinau") (VInt 100) (VStr "2001-02-03") VNone
           "1010620000000-Asociatia Alfa");
    try reflexivity.
  intros _. exists "Ion Rusu". split; [reflexivity | eexists; reflexivity].
Defined.

(** The organization of the sample row and its director, as emitted. *)
Example nonprofit_example :
  map (fun e => (ent_schema e, ent_id e))
    (new_emitted (crawl_row (tk := Sample.toolkit) (hp := SampleHelpers.helpers)
                    (SampleHelpers.row (VStr "1010620000000") (VStr "Asociatia Alfa")
                       (VStr "Ion Rusu"))) ctx0)
  = [ ("Person", Some "Ion Rusu");
      ("Directorship", Some "1010620000000-Asociatia Alfa-Ion Rusu");
      ("Organization", Some "1010620000000-Asociatia Alfa") ].
Proof. reflexivity. Qed.
